(** * Workspace identicons: the derivation of [hybrid_gen.py] and
      [identicon_gen.py]

    Both prototypes turn a workspace name into a foreground colour and a
    mirror-symmetric boolean grid.  The derivation is a pure function of the
    SHA-256 digest of the UTF-8 encoded name; this file embeds it together
    with the Python primitives it calls ([hashlib.sha256],
    [colorsys.hls_to_rgb], list indexing, [int.from_bytes], float
    arithmetic) and proves the properties the specification states.

    Python [int] is [Z], Python [float] is the kernel's binary64
    ([PrimFloat.float]), [bytes] is [list byte], a list is a [list] read and
    written through [getitem] and [setitem], and an exception is the [Err]
    branch of [result]. *)

From Stdlib Require Import ZArith List Strings.String Strings.Byte Bool Lia.
From Stdlib Require Import Floats.PrimFloat Floats.SpecFloat Floats.FloatOps
  Floats.FloatAxioms.
From Stdlib Require Import Numbers.Cyclic.Int63.Uint63.
From Stdlib Require Import Strings.Ascii Numbers.DecimalString.
From stdpp Require Import base option list.

(* Decimal float literals denote the nearest binary64 value, as in Python. *)
#[local] Set Warnings "-inexact-float".
#[local] Open Scope Z_scope.

(** ** Python primitives *)

Module Py.

(** The exceptions the modelled primitives can raise. *)
Inductive exn : Set :=
| IndexError
| ValueError
| OverflowError.

Inductive result (A : Type) : Type :=
| Ok (a : A)
| Err (e : exn).
Arguments Ok {A} a.
Arguments Err {A} e.

#[export] Instance result_ret : MRet result := fun A a => Ok a.
#[export] Instance result_bind : MBind result := fun A B f m =>
  match m with
  | Ok a => f a
  | Err e => Err e
  end.

(** A [for x in xs:] loop whose body updates the loop state and may raise. *)
Fixpoint for_each {A St : Type} (xs : list A) (body : A -> St -> result St)
    (s : St) : result St :=
  match xs with
  | [] => Ok s
  | x :: xs' => s' ← body x s; for_each xs' body s'
  end.

(** [range(n)]: [0, 1, ..., n-1], empty when [n <= 0]. *)
Definition range (n : Z) : list Z := Z.of_nat <$> seq 0 (Z.to_nat n).

(** [[x] * n]: [n] copies of [x], none when [n <= 0]. *)
Definition list_mul {A : Type} (x : A) (n : Z) : list A :=
  replicate (Z.to_nat n) x.

(** Index normalisation of [list.__getitem__] and [list.__setitem__]: a
    negative index counts from the end, anything outside [-len, len) raises
    [IndexError]. *)
Definition norm_index (len : nat) (i : Z) : result nat :=
  if (0 <=? i) && (i <? Z.of_nat len) then Ok (Z.to_nat i)
  else if (- Z.of_nat len <=? i) && (i <? 0) then Ok (Z.to_nat (i + Z.of_nat len))
  else Err IndexError.

Definition getitem {A : Type} (l : list A) (i : Z) : result A :=
  n ← norm_index (length l) i;
  match l !! n with
  | Some x => Ok x
  | None => Err IndexError
  end.

Definition setitem {A : Type} (l : list A) (i : Z) (x : A) : result (list A) :=
  n ← norm_index (length l) i;
  Ok (<[n := x]> l).

(** [l[a:b]] for [0 <= a]: slicing clamps and never raises. *)
Definition slice {A : Type} (l : list A) (a b : Z) : list A :=
  take (Z.to_nat (b - a)) (drop (Z.to_nat a) l).

(** An element of a [bytes] object read as an [int]. *)
Definition int_of_byte (b : byte) : Z := Z.of_N (Byte.to_N b).

(** [int.from_bytes(bs, 'little')]. *)
Fixpoint int_from_bytes_little (bs : list byte) : Z :=
  match bs with
  | [] => 0
  | b :: bs' => int_of_byte b + 256 * int_from_bytes_little bs'
  end.

(** [bool(n)] of an [int]. *)
Definition bool_of_int (n : Z) : bool := negb (n =? 0).

(** [float(n)] for the integers that occur here, all of them in [0, 2^16):
    the conversion is exact below [2^53]. *)
Definition float_of_int (n : Z) : float := PrimFloat.of_uint63 (Uint63.of_Z n).

(** [int(x)]: truncation toward zero; [int(nan)] raises [ValueError],
    [int(inf)] raises [OverflowError]. *)
Definition int_of_float (x : float) : result Z :=
  match Prim2SF x with
  | S754_zero _ => Ok 0
  | S754_infinity _ => Err OverflowError
  | S754_nan => Err ValueError
  | S754_finite s m e =>
      let a := Z.shiftl (Z.pos m) e in
      Ok (if s then - a else a)
  end.

(** The largest integer not above [x] ([math.floor]), and the integer
    nearest to [x] with ties away from zero on the positive side
    ([floor(x + 1/2)]); the specification contrasts them with [int]. *)
Definition floor_of_float (x : float) : option Z :=
  match Prim2SF x with
  | S754_zero _ => Some 0
  | S754_finite s m e => Some (Z.shiftl (if s then Z.neg m else Z.pos m) e)
  | _ => None
  end.

Definition nearest_of_float (x : float) : option Z :=
  match Prim2SF x with
  | S754_zero _ => Some 0
  | S754_finite s m e =>
      Some (Z.shiftl (2 * (if s then Z.neg m else Z.pos m) + Z.shiftl 1 (- e)) (e - 1))
  | _ => None
  end.

(** [x % 1.0] ([float_rem] of CPython): C's [fmod(x, 1.0)], which is exact
    and keeps the sign of [x], moved up by [1.0] when it is negative. *)
Definition float_trunc (x : float) : float :=
  match int_of_float x with
  | Ok n =>
      if Z.abs n <? 2 ^ 52 then
        if n <? 0 then (- float_of_int (- n))%float else float_of_int n
      else x
  | Err _ => nan
  end.

Definition float_mod1 (x : float) : float :=
  let m := (x - float_trunc x)%float in
  if (m =? 0)%float then 0%float
  else if (m <? 0)%float then (m + 1)%float
  else m.

End Py.

(** ** [hashlib.sha256]

    The digest primitive, written out after FIPS 180-4 on 32-bit words held
    in [Z]; the test vectors of section [Vectors] pin it down. *)

Module Sha256.

Definition mask32 : Z := 2 ^ 32 - 1.
Definition w32 (x : Z) : Z := Z.land x mask32.
Definition add32 (x y : Z) : Z := w32 (x + y).
Definition rotr (n x : Z) : Z := Z.lor (Z.shiftr x n) (w32 (Z.shiftl x (32 - n))).

Definition Ch (x y z : Z) : Z :=
  Z.lxor (Z.land x y) (Z.land (Z.lxor x mask32) z).
Definition Maj (x y z : Z) : Z :=
  Z.lxor (Z.lxor (Z.land x y) (Z.land x z)) (Z.land y z).
Definition Sigma0 (x : Z) : Z := Z.lxor (Z.lxor (rotr 2 x) (rotr 13 x)) (rotr 22 x).
Definition Sigma1 (x : Z) : Z := Z.lxor (Z.lxor (rotr 6 x) (rotr 11 x)) (rotr 25 x).
Definition sigma0 (x : Z) : Z := Z.lxor (Z.lxor (rotr 7 x) (rotr 18 x)) (Z.shiftr x 3).
Definition sigma1 (x : Z) : Z := Z.lxor (Z.lxor (rotr 17 x) (rotr 19 x)) (Z.shiftr x 10).

(** The round constants: the first 32 bits of the fractional parts of the
    cube roots of the first 64 primes. *)
Definition K : list Z :=
  [
    1116352408; 1899447441; 3049323471; 3921009573; 961987163; 1508970993;
    2453635748; 2870763221; 3624381080; 310598401; 607225278; 1426881987;
    1925078388; 2162078206; 2614888103; 3248222580; 3835390401; 4022224774;
    264347078; 604807628; 770255983; 1249150122; 1555081692; 1996064986;
    2554220882; 2821834349; 2952996808; 3210313671; 3336571891; 3584528711;
    113926993; 338241895; 666307205; 773529912; 1294757372; 1396182291;
    1695183700; 1986661051; 2177026350; 2456956037; 2730485921; 2820302411;
    3259730800; 3345764771; 3516065817; 3600352804; 4094571909; 275423344;
    430227734; 506948616; 659060556; 883997877; 958139571; 1322822218;
    1537002063; 1747873779; 1955562222; 2024104815; 2227730452; 2361852424;
    2428436474; 2756734187; 3204031479; 3329325298 ].

(** The eight working words [a .. h]. *)
Record state : Set := State {
  sa : Z; sb : Z; sc : Z; sd : Z; se : Z; sf : Z; sg : Z; sh : Z
}.

Definition H0 : state :=
  State 1779033703 3144134277 1013904242 2773480762
        1359893119 2600822924 528734635 1541459225.

(** Padding: a [0x80] byte, zeros up to 56 modulo 64, then the bit length
    as a 64-bit big-endian integer. *)
Definition be_bytes (n : nat) (x : Z) : list Z :=
  (fun i => Z.land (Z.shiftr x (8 * Z.of_nat i)) 0xFF) <$> rev (seq 0 n).

Definition pad (msg : list Z) : list Z :=
  let len := Z.of_nat (length msg) in
  msg ++ [0x80] ++ replicate (Z.to_nat ((55 - len) mod 64)) 0 ++ be_bytes 8 (8 * len).

Fixpoint be_word (bs : list Z) (acc : Z) : Z :=
  match bs with
  | [] => acc
  | b :: bs' => be_word bs' (Z.lor (Z.shiftl acc 8) b)
  end.

(** The words of a block, four bytes each. *)
Fixpoint words (n : nat) (bs : list Z) : list Z :=
  match n with
  | O => []
  | S n' => be_word (take 4 bs) 0 :: words n' (drop 4 bs)
  end.

(** The message schedule, kept newest word first while it grows. *)
Fixpoint extend (n : nat) (rw : list Z) : list Z :=
  match n with
  | O => rw
  | S n' =>
      let w := add32 (add32 (add32 (sigma1 (rw !!! 1%nat)) (rw !!! 6%nat))
                            (sigma0 (rw !!! 14%nat))) (rw !!! 15%nat) in
      extend n' (w :: rw)
  end.

Definition schedule (block : list Z) : list Z :=
  rev (extend 48 (rev (words 16 block))).

Definition round (s : state) (kw : Z * Z) : state :=
  let t1 := add32 (add32 (add32 (add32 (sh s) (Sigma1 (se s)))
                                (Ch (se s) (sf s) (sg s))) (fst kw)) (snd kw) in
  let t2 := add32 (Sigma0 (sa s)) (Maj (sa s) (sb s) (sc s)) in
  State (add32 t1 t2) (sa s) (sb s) (sc s) (add32 (sd s) t1) (se s) (sf s) (sg s).

Definition compress (s : state) (block : list Z) : state :=
  let t := fold_left round (zip K (schedule block)) s in
  State (add32 (sa s) (sa t)) (add32 (sb s) (sb t)) (add32 (sc s) (sc t))
        (add32 (sd s) (sd t)) (add32 (se s) (se t)) (add32 (sf s) (sf t))
        (add32 (sg s) (sg t)) (add32 (sh s) (sh t)).

Fixpoint blocks (n : nat) (s : state) (bs : list Z) : state :=
  match n with
  | O => s
  | S n' => blocks n' (compress s (take 64 bs)) (drop 64 bs)
  end.

Definition byte_of_int (z : Z) : byte :=
  default x00 (Byte.of_N (Z.to_N (Z.land z 0xFF))).

Definition word_bytes (w : Z) : list byte :=
  [ byte_of_int (Z.shiftr w 24); byte_of_int (Z.shiftr w 16);
    byte_of_int (Z.shiftr w 8); byte_of_int w ].

Definition digest_of (s : state) : list byte :=
  word_bytes (sa s) ++ word_bytes (sb s) ++ word_bytes (sc s) ++ word_bytes (sd s) ++
  word_bytes (se s) ++ word_bytes (sf s) ++ word_bytes (sg s) ++ word_bytes (sh s).

(** [hashlib.sha256(msg).digest()]. *)
Definition sha256 (msg : list byte) : list byte :=
  let p := pad (Py.int_of_byte <$> msg) in
  digest_of (blocks (length p / 64)%nat H0 p).

(** The bytes of a digest as integers, to state test vectors. *)
Definition octets (bs : list byte) : list Z := Py.int_of_byte <$> bs.

End Sha256.

(** [str.encode('utf-8')].  A [string] is a sequence of bytes and stands for
    the text whose UTF-8 encoding it is, so encoding returns the bytes as
    they are; a [str] holding a lone surrogate, which Python refuses to
    encode, has no representative in this type. *)
Definition encode_utf8 (name : string) : list byte := list_byte_of_string name.

(** ** [colorsys.hls_to_rgb] (CPython's [Lib/colorsys.py]) *)

Module Colorsys.
#[local] Open Scope float_scope.

Definition ONE_THIRD : float := 1 / 3.
Definition ONE_SIXTH : float := 1 / 6.
Definition TWO_THIRD : float := 2 / 3.

Definition _v (m1 m2 hue : float) : float :=
  let hue := Py.float_mod1 hue in
  if hue <? ONE_SIXTH then m1 + (m2 - m1) * hue * 6
  else if hue <? 0.5 then m2
  else if hue <? TWO_THIRD then m1 + (m2 - m1) * (TWO_THIRD - hue) * 6
  else m1.

Definition hls_to_rgb (h l s : float) : float * float * float :=
  if s =? 0 then (l, l, l)
  else
    let m2 := if l <=? 0.5 then l * (1 + s) else l + s - (l * s) in
    let m1 := 2 * l - m2 in
    (_v m1 m2 (h + ONE_THIRD), _v m1 m2 h, _v m1 m2 (h - ONE_THIRD)).

End Colorsys.

(** ** The code shared by the two prototypes

    Lines 19 to 26 of [hybrid_gen.py] and lines 33 to 43 of
    [identicon_gen.py] are the same text: the digest, then hue, saturation
    and lightness from its first four bytes, then the colour. *)

Module Derive.
Import Py.

Abbreviation rgb := (Z * Z * Z)%type.
Abbreviation grid := (list (list bool)).

(** [h = hashlib.sha256(name.encode('utf-8')).digest()] *)
Definition digest (name : string) : list byte :=
  Sha256.sha256 (encode_utf8 name).

(** [hue = (h[0] | (h[1] << 8)) % 360] *)
Definition hue_of (h : list byte) : result Z :=
  h0 ← getitem h 0;
  h1 ← getitem h 1;
  mret (Z.lor (int_of_byte h0) (Z.shiftl (int_of_byte h1) 8) mod 360).

(** [sat = 0.5 + (h[2] / 255.0) * 0.3], as a function of the byte. *)
Definition sat_float (b : Z) : float :=
  (0.5 + (float_of_int b / 255) * 0.3)%float.

Definition sat_of (h : list byte) : result float :=
  h2 ← getitem h 2;
  mret (sat_float (int_of_byte h2)).

(** [light = 0.4 + (h[3] / 255.0) * 0.25], as a function of the byte. *)
Definition light_float (b : Z) : float :=
  (0.4 + (float_of_int b / 255) * 0.25)%float.

Definition light_of (h : list byte) : result float :=
  h3 ← getitem h 3;
  mret (light_float (int_of_byte h3)).

(** [r, g, b = colorsys.hls_to_rgb(hue / 360.0, light, sat)] *)
Definition rgb_floats (hue : Z) (light sat : float) : float * float * float :=
  Colorsys.hls_to_rgb (float_of_int hue / 360)%float light sat.

(** [fg_color = (int(r * 255), int(g * 255), int(b * 255))] *)
Definition scale (rgbf : float * float * float) : result rgb :=
  let '(r, g, b) := rgbf in
  ri ← int_of_float (r * 255)%float;
  gi ← int_of_float (g * 255)%float;
  bi ← int_of_float (b * 255)%float;
  mret (ri, gi, bi).

Definition fg_color (h : list byte) : result rgb :=
  hue ← hue_of h;
  sat ← sat_of h;
  light ← light_of h;
  scale (rgb_floats hue light sat).

(** [grid[row][col] = on]: the row is fetched, written in place, and stays
    the element of [grid] it was; the rows are distinct lists, each built by
    its own [[False] * n]. *)
Definition set_cell (g : grid) (row col : Z) (on : bool) : result grid :=
  r ← getitem g row;
  r' ← setitem r col on;
  setitem g row r'.

(** [grid[row][col]] *)
Definition cell (g : grid) (row col : Z) : result bool :=
  r ← getitem g row;
  getitem r col.

End Derive.

(** ** [hybrid_gen.py] *)

Module Hybrid.
Import Py Derive.

(** The two nested loops (lines 33 to 38).  [row] and [col] come out of
    [range], so [bit_index] is never negative and [1 << bit_index] never
    raises. *)
Definition fill (grid_size half bits : Z) (g : grid) : result grid :=
  for_each (range grid_size) (fun row g =>
    for_each (range half) (fun col g =>
      let bit_index := row * half + col in
      let on := bool_of_int (Z.land bits (Z.shiftl 1 bit_index)) in
      g ← set_cell g row col on;
      set_cell g row (grid_size - 1 - col) on) g) g.

(** [identicon_data(name, grid_size)] (lines 17 to 40). *)
Definition identicon_data (name : string) (grid_size : Z) : result (rgb * grid) :=
  let h := digest name in
  fg_color ← fg_color h;
  let half := (grid_size + 1) / 2 in
  let bits_needed := grid_size * half in
  let bits := int_from_bytes_little (slice h 4 8) in
  let g := (fun _ => list_mul false grid_size) <$> range grid_size in
  g ← fill grid_size half bits g;
  mret (fg_color, g).

End Hybrid.

(** ** [identicon_gen.py] *)

Module Identicon.
Import Py Derive.

(** The loops of lines 51 to 56, with the constants 5, 3 and 4 as written. *)
Definition fill (bits : Z) (g : grid) : result grid :=
  for_each (range 5) (fun row g =>
    for_each (range 3) (fun col g =>
      let bit_index := row * 3 + col in
      let on := bool_of_int (Z.land bits (Z.shiftl 1 bit_index)) in
      g ← set_cell g row col on;
      set_cell g row (4 - col) on) g) g.

(** [generate_identicon_data(name)] (lines 31 to 58). *)
Definition generate_identicon_data (name : string) : result (rgb * grid) :=
  let h := digest name in
  fg_color ← fg_color h;
  h4 ← getitem h 4;
  h5 ← getitem h 5;
  let bits := Z.lor (int_of_byte h4) (Z.shiftl (int_of_byte h5) 8) in
  let g := (fun _ => list_mul false 5) <$> range 5 in
  g ← fill bits g;
  mret (fg_color, g).

End Identicon.

(** ** What a filled grid looks like *)

Module Grid.
Import Py Derive.

(** [on] of the loop body: [bool(bits & (1 << bit_index))]. *)
Definition on (bits half row col : Z) : bool :=
  bool_of_int (Z.land bits (Z.shiftl 1 (row * half + col))).

(** The cell the loops leave at [(row, col)]: the bit of the column or of
    its mirror image, whichever is in the left half. *)
Definition final (bits half grid_size row col : Z) : bool :=
  on bits half row (Z.min col (grid_size - 1 - col)).

(** The row under construction after the columns below [k]. *)
Definition partial (bits half grid_size row k : Z) (f : Z -> Z -> bool)
    (r c : Z) : bool :=
  if r =? row then
    if c <? k then on bits half row c
    else if grid_size - 1 - k <? c then on bits half row (grid_size - 1 - c)
    else f r c
  else f r c.

(** [g] is an [n] by [n] grid whose cell [(r, c)] holds [f r c]. *)
Definition grid_is (n : Z) (f : Z -> Z -> bool) (g : grid) : Prop :=
  Z.of_nat (length g) = n /\
  forall r, 0 <= r < n ->
    exists row, g !! Z.to_nat r = Some row /\ Z.of_nat (length row) = n /\
      forall c, 0 <= c < n -> row !! Z.to_nat c = Some (f r c).

(** [[[False] * n for _ in range(n)]] *)
Definition blank (n : Z) : grid := (fun _ => list_mul false n) <$> range n.

(** The pattern bits of [hybrid_gen.py]:
    [bits = int.from_bytes(h[4:8], 'little')]. *)
Definition bits_of (name : string) : Z :=
  int_from_bytes_little (slice (digest name) 4 8).

End Grid.

(** ** The colour stays in range

    The colour depends on the digest through [hue] (360 values) and the
    bytes [h[2]] and [h[3]] (256 values each).  Floating-point rounding is
    settled by evaluation, on every one of the 360 * 256 * 256 inputs: the
    pairs [(m1, m2)] of [hls_to_rgb] are tabulated once, and every hue is
    run against the table. *)

Module ColorRange.
Import Py Colorsys Derive.
#[local] Open Scope float_scope.

(** The branch [_v] takes depends on the hue alone. *)
Inductive vcase : Set :=
| Rise (t : float)
| High
| Fall (u : float)
| Low.

Definition v_case (hue : float) : vcase :=
  let hue := float_mod1 hue in
  if hue <? ONE_SIXTH then Rise hue
  else if hue <? 0.5 then High
  else if hue <? TWO_THIRD then Fall (TWO_THIRD - hue)
  else Low.

Definition v_eval (m1 m2 : float) (c : vcase) : float :=
  match c with
  | Rise t => m1 + (m2 - m1) * t * 6
  | High => m2
  | Fall u => m1 + (m2 - m1) * u * 6
  | Low => m1
  end.

(** A channel value in [0, 1] whose scaled value lies in [0, 256). *)
Definition channel_ok (x : float) : bool :=
  let y := x * 255 in
  (0 <=? x) && (x <=? 1) && (0 <=? y) && (y <? 256).

(** [m1] and [m2] of [hls_to_rgb]. *)
Definition m12 (ls : float * float) : float * float :=
  let '(l, s) := ls in
  let m2 := if l <=? 0.5 then l * (1 + s) else l + s - (l * s) in
  let m1 := 2 * l - m2 in
  (m1, m2).

Definition ls_table : list (float * float) :=
  flat_map (fun s => List.map (fun l => (light_float l, sat_float s)) (range 256))
           (range 256).

Definition m_table : list (float * float) := List.map m12 ls_table.

(** The two flat branches of [_v] return [m2] and [m1] themselves. *)
Definition ends_ok (m : float * float) : bool :=
  channel_ok (fst m) && channel_ok (snd m).

Definition slope_ok (t : float) (m : float * float) : bool :=
  channel_ok (v_eval (fst m) (snd m) (Rise t)).

Definition case_ok (tbl : list (float * float)) (c : vcase) : bool :=
  match c with
  | Rise t | Fall t => forallb (slope_ok t) tbl
  | High | Low => true
  end.

Definition hue_ok (tbl : list (float * float)) (hue : Z) : bool :=
  let h := float_of_int hue / 360 in
  case_ok tbl (v_case (h + ONE_THIRD)) && case_ok tbl (v_case h) &&
  case_ok tbl (v_case (h - ONE_THIRD)).

Definition hues_ok (tbl : list (float * float)) : bool :=
  forallb ends_ok tbl && forallb (hue_ok tbl) (range 360).

(** Saturation is never zero and stays in [0.5, 0.8]; lightness stays in
    [0.4, 0.65]. *)
Definition byte_ok (b : Z) : bool :=
  negb (sat_float b =? 0) &&
  (0.5 <=? sat_float b) && (sat_float b <=? 0.8) &&
  (0.4 <=? light_float b) && (light_float b <=? 0.65).

Definition bytes_ok (n : Z) : bool := forallb byte_ok (range n).

(** A channel value [x] in [0, 1] and the integer [n] in [0, 255] that
    [int(x * 255)] makes of it. *)
Definition channel (x : float) (n : Z) : Prop :=
  (0 <=? x) = true /\ (x <=? 1) = true /\
  int_of_float (x * 255) = Ok n /\ floor_of_float (x * 255) = Some n /\
  (0 <= n <= 255)%Z.

End ColorRange.

(** ** Text: [len], slices, [repr] and [join] of [str]

    A [string] holds the UTF-8 encoding of the text, so a character is a
    byte that is not a continuation byte ([10xxxxxx]) together with the
    continuation bytes after it. *)

Module Str.
#[local] Open Scope string_scope.

Definition is_continuation (c : ascii) : bool :=
  match c with
  | Ascii _ _ _ _ _ _ b6 b7 => b7 && negb b6
  end.

(** [len(s)]: the number of characters. *)
Fixpoint len (s : string) : Z :=
  match s with
  | EmptyString => 0
  | String c s' => (if is_continuation c then 0 else 1) + len s'
  end.

(** [s[:n]] for [n >= 0]: the first [n] characters. *)
Fixpoint prefix (n : nat) (s : string) : string :=
  match s with
  | EmptyString => EmptyString
  | String c s' =>
      if is_continuation c then String c (prefix n s')
      else match n with
           | O => EmptyString
           | S n' => String c (prefix n' s')
           end
  end.

(** [repr(n)] of an [int]: decimal digits, [-] in front when negative. *)
Definition repr_int (n : Z) : string := NilZero.string_of_int (Z.to_int n).

(** [repr(t)] of a tuple of three [int]s. *)
Definition repr_tuple3 (t : Z * Z * Z) : string :=
  let '(a, b, c) := t in
  "(" ++ repr_int a ++ ", " ++ repr_int b ++ ", " ++ repr_int c ++ ")".

Definition newline : string := String (ascii_of_nat 10) EmptyString.

(** [sep.join(parts)] *)
Fixpoint join (sep : string) (parts : list string) : string :=
  match parts with
  | [] => ""
  | [p] => p
  | p :: rest => p ++ sep ++ join sep rest
  end.

End Str.

(** ** PIL's [ImageDraw]

    The prototypes draw by calling methods of an [ImageDraw.Draw] object.
    The object is the list of the calls made on it, oldest first (a later
    call paints over an earlier one).  Rasterising them is PIL's work.
    Refusing a box is part of the call: [rectangle] and [ellipse] raise
    [ValueError] ("x1 must be greater than or equal to x0", and the same
    for y) on a box whose second corner lies before its first, and draw
    nothing then. *)

Module Pil.
Import Py Derive.

Inductive call : Set :=
| Rectangle (x0 y0 x1 y1 : Z) (fill : Z * Z * Z)
| Ellipse (x0 y0 x1 y1 : Z) (fill : Z * Z * Z)
| Text (x y : Z) (text : string) (fill : Z * Z * Z).

Abbreviation canvas := (list call).

(** The box [[x0, y0, x1, y1]] is refused when [x1 < x0] or [y1 < y0]. *)
Definition refused (x0 y0 x1 y1 : Z) : bool :=
  (x1 <? x0) || (y1 <? y0).

(** [draw.rectangle([x0, y0, x1, y1], fill=fill)] *)
Definition rectangle (draw : canvas) (x0 y0 x1 y1 : Z) (fill : rgb)
    : result canvas :=
  if refused x0 y0 x1 y1 then Err ValueError
  else Ok (draw ++ [Rectangle x0 y0 x1 y1 fill]).

(** [draw.ellipse([x0, y0, x1, y1], fill=fill)] *)
Definition ellipse (draw : canvas) (x0 y0 x1 y1 : Z) (fill : rgb)
    : result canvas :=
  if refused x0 y0 x1 y1 then Err ValueError
  else Ok (draw ++ [Ellipse x0 y0 x1 y1 fill]).

(** [draw.text((x, y), text, fill=fill, font=font)] *)
Definition text (draw : canvas) (x y : Z) (t : string) (fill : rgb) : canvas :=
  draw ++ [Text x y t fill].

(** The pixels a rectangle call covers: both corners are included. *)
Definition covers (c : call) (px py : Z) : Prop :=
  match c with
  | Rectangle x0 y0 x1 y1 _ => x0 <= px <= x1 /\ y0 <= py <= y1
  | _ => False
  end.

Definition is_ellipse (c : call) : bool :=
  match c with
  | Ellipse _ _ _ _ _ => true
  | _ => false
  end.

Definition is_text (c : call) : bool :=
  match c with
  | Text _ _ _ _ => true
  | _ => false
  end.

End Pil.

(** ** [draw_tile] of [hybrid_gen.py] (lines 43 to 79) *)

Module Tile.
Import Py Derive Pil.

(** [draw_tile] divides by [grid_size], so it can raise one exception more
    than the derivation. *)
Inductive exn : Set :=
| Raised (e : Py.exn)
| ZeroDivisionError.

Inductive outcome (A : Type) : Type :=
| Done (a : A)
| Fail (e : exn).
Arguments Done {A} a.
Arguments Fail {A} e.

#[export] Instance outcome_ret : MRet outcome := fun A a => Done a.
#[export] Instance outcome_bind : MBind outcome := fun A B f m =>
  match m with
  | Done a => f a
  | Fail e => Fail e
  end.

Definition lift {A : Type} (r : result A) : outcome A :=
  match r with
  | Ok a => Done a
  | Err e => Fail (Raised e)
  end.

(** [a // b] on [int]: the floor of the quotient, [ZeroDivisionError] when
    [b] is 0. *)
Definition floordiv (a b : Z) : outcome Z :=
  if b =? 0 then Fail ZeroDivisionError else Done (a / b).

(** [tuple(c // 5 for c in fg_color)] *)
Definition dim (fg_color : rgb) : rgb :=
  let '(r, g, b) := fg_color in (r / 5, g / 5, b / 5).

(** The rectangle of the cell at [(row, col)]. *)
Definition cell_rect (gx gy cell_w cell_h row col : Z) (fill : rgb) : call :=
  let cx := gx + col * cell_w in
  let cy := gy + row * cell_h in
  Rectangle cx cy (cx + cell_w - 1) (cy + cell_h - 1) fill.

(** The loops of lines 63 to 70: every cell is painted, in the foreground
    colour when it is set and in the dimmed colour when it is not. *)
Definition draw_cells (g : grid) (grid_size gx gy cell_w cell_h : Z)
    (fg_color dim_color : rgb) (draw : canvas) : result canvas :=
  for_each (range grid_size) (fun row draw =>
    for_each (range grid_size) (fun col draw =>
      let cx := gx + col * cell_w in
      let cy := gy + row * cell_h in
      on ← cell g row col;
      if on : bool
      then rectangle draw cx cy (cx + cell_w - 1) (cy + cell_h - 1) fg_color
      else rectangle draw cx cy (cx + cell_w - 1) (cy + cell_h - 1) dim_color)
      draw) draw.

(** [draw_tile(draw, x, y, tile_w, tile_h, name, grid_size, show_status,
    scale)]: the result is the [draw] object after the call.  When the call
    raises, the exception is the result. *)
Definition draw_tile (draw : canvas) (x y tile_w tile_h : Z) (name : string)
    (grid_size : Z) (show_status : bool) (scale : Z) : outcome canvas :=
  '(fg_color, g) ← lift (Hybrid.identicon_data name grid_size);
  let bg_color := (30, 30, 36) in
  draw ← lift (rectangle draw x y (x + tile_w - 1) (y + tile_h - 1) bg_color);
  let padding := 4 * scale in
  let icon_area_w := tile_w - 2 * padding in
  let icon_area_h := tile_h - 2 * padding in
  cell_w ← floordiv icon_area_w grid_size;
  cell_h ← floordiv icon_area_h grid_size;
  let gx := x + (tile_w - cell_w * grid_size) / 2 in
  let gy := y + (tile_h - cell_h * grid_size) / 2 in
  let dim_color := dim fg_color in
  draw ← lift (draw_cells g grid_size gx gy cell_w cell_h fg_color dim_color draw);
  if show_status then
    let dot_size := 6 * scale in
    let dot_x := x + tile_w - dot_size - 2 * scale in
    let dot_y := y + 2 * scale in
    lift (ellipse draw dot_x dot_y (dot_x + dot_size) (dot_y + dot_size)
                  (50, 200, 50))
  else Done draw.

(** The geometry of a tile, as the body of [draw_tile] computes it. *)
Definition padding_of (scale : Z) : Z := 4 * scale.
Definition cell_w_of (tile_w grid_size scale : Z) : Z :=
  (tile_w - 2 * padding_of scale) / grid_size.
Definition origin_of (x tile_w grid_size scale : Z) : Z :=
  x + (tile_w - cell_w_of tile_w grid_size scale * grid_size) / 2.

(** The rectangle [draw_tile] paints for the cell at [(row, col)]. *)
Definition tile_cell (x y tile_w tile_h grid_size scale row col : Z)
    (fill : rgb) : call :=
  cell_rect (origin_of x tile_w grid_size scale) (origin_of y tile_h grid_size scale)
            (cell_w_of tile_w grid_size scale) (cell_w_of tile_h grid_size scale)
            row col fill.

(** The calls of the two loops, row by row, for a grid whose cell
    [(row, col)] holds [on row col]. *)
Definition cells (x y tile_w tile_h grid_size scale : Z) (on : Z -> Z -> bool)
    (fg_color : rgb) : list call :=
  flat_map (fun row =>
    List.map (fun col =>
      tile_cell x y tile_w tile_h grid_size scale row col
                (if on row col then fg_color else dim fg_color))
      (range grid_size))
    (range grid_size).

(** The place of the call for the cell [(row, col)] among the calls of one
    [draw_tile]: after the background, row by row. *)
Definition cell_index (grid_size row col : Z) : nat :=
  Z.to_nat (1 + row * grid_size + col).

Definition background (x y tile_w tile_h : Z) : call :=
  Rectangle x y (x + tile_w - 1) (y + tile_h - 1) (30, 30, 36).

Definition status_dot (x y tile_w scale : Z) : call :=
  let dot_size := 6 * scale in
  let dot_x := x + tile_w - dot_size - 2 * scale in
  let dot_y := y + 2 * scale in
  Ellipse dot_x dot_y (dot_x + dot_size) (dot_y + dot_size) (50, 200, 50).

End Tile.

(** ** The renderers of [identicon_gen.py] *)

Module Render.
Import Py Derive Pil.

(** [name if len(name) <= 16 else name[:14] + ".."] (line 95) *)
Definition display_name (name : string) : string :=
  if Str.len name <=? 16 then name else (Str.prefix 14 name ++ "..")%string.

(** The loops of lines 80 to 86: only the cells that are set are painted. *)
Definition draw_cells (g : grid) (gx gy cell_size : Z) (fg_color : rgb)
    (draw : canvas) : result canvas :=
  for_each (range 5) (fun row draw =>
    for_each (range 5) (fun col draw =>
      on ← cell g row col;
      if on : bool then
        let cx := gx + col * cell_size in
        let cy := gy + row * cell_size in
        rectangle draw cx cy (cx + cell_size - 1) (cy + cell_size - 1) fg_color
      else Ok draw) draw) draw.

(** [render_identicon_pil(draw, x_offset, y_offset, size, name, label)]
    (lines 61 to 100).  [textbbox s] stands for
    [draw.textbbox((0, 0), s, font=font)] with the font that loaded, Menlo
    or PIL's default one. *)
Definition render_identicon_pil (textbbox : string -> Z * Z * Z * Z)
    (draw : canvas) (x_offset y_offset size : Z) (name : string)
    (label : bool) : result canvas :=
  '(fg_color, g) ← Identicon.generate_identicon_data name;
  let bg_color := (30, 30, 36) in
  draw ← rectangle draw x_offset y_offset (x_offset + size - 1)
                   (y_offset + size - 1) bg_color;
  let icon_area := size - 8 in
  let cell_size := icon_area / 5 in
  let grid_size := cell_size * 5 in
  let gx := x_offset + (size - grid_size) / 2 in
  let gy := y_offset + (size - grid_size) / 2 in
  draw ← draw_cells g gx gy cell_size fg_color draw;
  if label then
    let display_name := display_name name in
    let '(b0, b1, b2, b3) := textbbox display_name in
    let tw := b2 - b0 in
    let tx := x_offset + (size - tw) / 2 in
    let ty := y_offset + size + 2 in
    Ok (text draw tx ty display_name (180, 180, 190))
  else Ok draw.

(** The geometry of a tile, as the body of [render_identicon_pil] computes
    it, and the rectangle painted for the cell at [(row, col)]. *)
Definition cell_size_of (size : Z) : Z := (size - 8) / 5.
Definition origin_of (x size : Z) : Z := x + (size - cell_size_of size * 5) / 2.

Definition pil_cell (x y size row col : Z) (fill : rgb) : call :=
  Tile.cell_rect (origin_of x size) (origin_of y size)
                 (cell_size_of size) (cell_size_of size) row col fill.

(** The calls of the two loops for a grid whose cell [(row, col)] holds
    [on row col]. *)
Definition cells (x y size : Z) (on : Z -> Z -> bool) (fg_color : rgb) : list call :=
  flat_map (fun row =>
    flat_map (fun col => if on row col then [pil_cell x y size row col fg_color] else [])
      (range 5))
    (range 5).

(** The label call. *)
Definition label_text (textbbox : string -> Z * Z * Z * Z) (x y size : Z)
    (name : string) : call :=
  let '(b0, b1, b2, b3) := textbbox (display_name name) in
  Text (x + (size - (b2 - b0)) / 2) (y + size + 2) (display_name name) (180, 180, 190).

(** The number of cells of a grid that are set. *)
Definition count_set (g : grid) : nat := length (filter (fun b : bool => b = true) (concat g)).

(** One line of the ASCII art: two spaces, then two full blocks for a cell
    that is set and two spaces for one that is not. *)
Definition row_line (row : list bool) : string :=
  fold_left (fun line (cell : bool) => line ++ (if cell then "██" else "  "))%string
            row "  "%string.

(** [render_text_identicon(name)] (lines 103 to 114). *)
Definition render_text_identicon (name : string) : result string :=
  '(fg_color, g) ← Identicon.generate_identicon_data name;
  let lines := [] in
  let lines :=
    lines ++ [("  " ++ name ++ " (color: rgb" ++ Str.repr_tuple3 fg_color ++ ")")%string] in
  let lines := fold_left (fun lines row => lines ++ [row_line row]) g lines in
  let lines := lines ++ [""%string] in
  Ok (Str.join Str.newline lines).

End Render.

(** ** Facts about the Python primitives *)

Section PyFacts.
Import Py.

Lemma range_elem (n x : Z) : In x (range n) <-> 0 <= x < n.
Proof.
  unfold range. rewrite <- list_elem_of_In, list_elem_of_fmap. split.
  - intros (k & -> & Hk). apply elem_of_seq in Hk. lia.
  - intros Hx. exists (Z.to_nat x). split; [lia|]. apply elem_of_seq. lia.
Qed.

Lemma range_nonpos (n : Z) : n <= 0 -> range n = [].
Proof. intros Hn. unfold range. replace (Z.to_nat n) with 0%nat by lia. reflexivity. Qed.

Lemma range_length (n : Z) : length (range n) = Z.to_nat n.
Proof. unfold range. now rewrite length_fmap, length_seq. Qed.

Lemma range_lookup (n i : Z) : 0 <= i < n -> range n !! Z.to_nat i = Some i.
Proof.
  intros Hi. unfold range. rewrite list_lookup_fmap, lookup_seq_lt by lia.
  simpl. f_equal. lia.
Qed.

Lemma norm_index_in (len : nat) (i : Z) :
  0 <= i < Z.of_nat len -> norm_index len i = Ok (Z.to_nat i).
Proof.
  intros Hi. unfold norm_index.
  destruct (Z.leb_spec 0 i); [|lia]. destruct (Z.ltb_spec i (Z.of_nat len)); [|lia].
  reflexivity.
Qed.

Lemma getitem_in {A : Type} (l : list A) (i : Z) (x : A) :
  0 <= i -> l !! Z.to_nat i = Some x -> getitem l i = Ok x.
Proof.
  intros Hi Hx. unfold getitem. apply lookup_lt_Some in Hx as Hlt.
  rewrite norm_index_in by lia. simpl. now rewrite Hx.
Qed.

Lemma setitem_in {A : Type} (l : list A) (i : Z) (x : A) :
  0 <= i < Z.of_nat (length l) -> setitem l i x = Ok (<[Z.to_nat i := x]> l).
Proof. intros Hi. unfold setitem. now rewrite norm_index_in. Qed.

(** A loop over [range(n)] that keeps an invariant indexed by the loop
    variable runs to its end and establishes the invariant at [n]. *)
Lemma for_each_seq {St : Type} (body : Z -> St -> result St)
    (Inv : Z -> St -> Prop) (k a : nat) (s : St) :
  Inv (Z.of_nat a) s ->
  (forall i t, Z.of_nat a <= i < Z.of_nat (a + k) -> Inv i t ->
     exists t', body i t = Ok t' /\ Inv (i + 1) t') ->
  exists s', for_each (Z.of_nat <$> seq a k) body s = Ok s' /\ Inv (Z.of_nat (a + k)) s'.
Proof.
  revert a s. induction k as [|k IH]; intros a s Hs Hstep.
  - exists s. split; [reflexivity|]. now replace (a + 0)%nat with a by lia.
  - destruct (Hstep (Z.of_nat a) s) as (t & Ht & Hinv); [lia|assumption|].
    destruct (IH (S a) t) as (s' & Hs' & Hinv').
    + now replace (Z.of_nat (S a)) with (Z.of_nat a + 1) by lia.
    + intros i u Hi. apply Hstep. lia.
    + exists s'. split.
      * cbn [seq fmap list_fmap for_each]. rewrite Ht. exact Hs'.
      * now replace (a + S k)%nat with (S a + k)%nat by lia.
Qed.

Lemma for_each_range {St : Type} (body : Z -> St -> result St)
    (Inv : Z -> St -> Prop) (n : Z) (s : St) :
  0 <= n ->
  Inv 0 s ->
  (forall i t, 0 <= i < n -> Inv i t -> exists t', body i t = Ok t' /\ Inv (i + 1) t') ->
  exists s', for_each (range n) body s = Ok s' /\ Inv n s'.
Proof.
  intros Hn Hs Hstep.
  destruct (for_each_seq body Inv (Z.to_nat n) 0 s) as (s' & Hs' & Hinv).
  - exact Hs.
  - intros i t Hi. apply Hstep. lia.
  - exists s'. split; [exact Hs'|]. now replace n with (Z.of_nat (0 + Z.to_nat n)) by lia.
Qed.

Lemma int_of_byte_range (b : byte) : 0 <= int_of_byte b < 256.
Proof. unfold int_of_byte. pose proof (Byte.to_N_bounded b). lia. Qed.

(** [bits & (1 << i)] is non-zero exactly when bit [i] of [bits] is set, and
    so is [(bits >> i) & 1]. *)
Lemma land_shiftl_testbit (bits i : Z) :
  0 <= i -> bool_of_int (Z.land bits (Z.shiftl 1 i)) = Z.testbit bits i.
Proof.
  intros Hi. unfold bool_of_int. rewrite Z.shiftl_1_l.
  destruct (Z.testbit bits i) eqn:Hb.
  - destruct (Z.eqb_spec (Z.land bits (2 ^ i)) 0) as [H0|]; [|reflexivity].
    apply (f_equal (fun z => Z.testbit z i)) in H0.
    rewrite Z.land_spec, Hb, Z.pow2_bits_true, Z.bits_0 in H0 by lia. discriminate.
  - replace (Z.land bits (2 ^ i)) with 0; [reflexivity|].
    symmetry. apply Z.bits_inj'. intros n Hn.
    rewrite Z.land_spec, Z.bits_0.
    destruct (Z.eq_dec n i) as [->|Hne].
    + now rewrite Hb.
    + rewrite Z.pow2_bits_false by lia. apply andb_false_r.
Qed.

Lemma shiftr_land_testbit (bits i : Z) :
  0 <= i -> negb (Z.land (Z.shiftr bits i) 1 =? 0) = Z.testbit bits i.
Proof.
  intros Hi. change 1 with (Z.ones 1) at 1. rewrite Z.land_ones by lia.
  change (2 ^ 1) with 2. rewrite <- Z.bit0_mod, Z.shiftr_spec by lia.
  rewrite Z.add_0_l. now destruct (Z.testbit bits i).
Qed.

(** Joining two bytes with [|] and [<<] is the little-endian read. *)
Lemma lor_shiftl_bytes (a b : Z) :
  0 <= a < 256 -> Z.lor a (Z.shiftl b 8) = a + 256 * b.
Proof.
  intros Ha. rewrite Z.shiftl_mul_pow2 by lia. change (2 ^ 8) with 256.
  rewrite <- Z.lxor_lor.
  - symmetry. rewrite (Z.mul_comm 256 b). apply Z.add_nocarry_lxor.
    apply Z.bits_inj'. intros n Hn. rewrite Z.land_spec, Z.bits_0.
    destruct (Z.lt_ge_cases n 8).
    + change 256 with (2 ^ 8). rewrite Z.mul_pow2_bits_low by lia. apply andb_false_r.
    + replace (Z.testbit a n) with false; [reflexivity|].
      symmetry. destruct (Z.eq_dec a 0) as [->|]; [apply Z.bits_0|].
      apply Z.bits_above_log2; [lia|].
      apply Z.log2_lt_pow2; [lia|]. apply Z.lt_le_trans with (2 ^ 8); [lia|].
      apply Z.pow_le_mono_r; lia.
  - apply Z.bits_inj'. intros n Hn. rewrite Z.land_spec, Z.bits_0.
    destruct (Z.lt_ge_cases n 8).
    + change 256 with (2 ^ 8). rewrite Z.mul_pow2_bits_low by lia. apply andb_false_r.
    + replace (Z.testbit a n) with false; [reflexivity|].
      symmetry. destruct (Z.eq_dec a 0) as [->|]; [apply Z.bits_0|].
      apply Z.bits_above_log2; [lia|].
      apply Z.log2_lt_pow2; [lia|]. apply Z.lt_le_trans with (2 ^ 8); [lia|].
      apply Z.pow_le_mono_r; lia.
Qed.

End PyFacts.

(** ** Facts about binary64 values *)

Section FloatFacts.
Import Py.

Lemma digits2_pos_bound (m : positive) : Z.pos m < 2 ^ Z.pos (digits2_pos m).
Proof.
  induction m as [m IH|m IH|]; cbn [digits2_pos].
  - rewrite Pos2Z.inj_succ, Z.pow_succ_r by lia. lia.
  - rewrite Pos2Z.inj_succ, Z.pow_succ_r by lia. lia.
  - reflexivity.
Qed.

(** The mantissa of a binary64 value has at most 53 bits. *)
Lemma mantissa_bound (x : float) (s : bool) (m : positive) (e : Z) :
  Prim2SF x = S754_finite s m e -> Z.pos m < 2 ^ 53.
Proof.
  intros Hx. pose proof (Prim2SF_valid x) as Hv. rewrite Hx in Hv.
  cbn [SpecFloat.valid_binary] in Hv. unfold bounded, canonical_mantissa, fexp in Hv.
  apply andb_prop in Hv as [Hc _]. apply Z.eqb_eq in Hc.
  unfold SpecFloat.emin in Hc. change prec with 53 in Hc. change emax with 1024 in Hc.
  pose proof (digits2_pos_bound m) as Hm.
  apply Z.lt_le_trans with (1 := Hm). apply Z.pow_le_mono_r; lia.
Qed.

Lemma Prim2SF_zero : Prim2SF 0%float = S754_zero false.
Proof. reflexivity. Qed.

Lemma Prim2SF_256 : Prim2SF 256%float = S754_finite false 4503599627370496 (-44).
Proof. reflexivity. Qed.

(** A value in [0, 256) converts to an integer in [0, 255], and [int] takes
    its floor. *)
Lemma int_of_float_small (y : float) :
  (0 <=? y)%float = true -> (y <? 256)%float = true ->
  exists n, int_of_float y = Ok n /\ floor_of_float y = Some n /\ 0 <= n <= 255.
Proof.
  rewrite FloatAxioms.leb_spec, FloatAxioms.ltb_spec, Prim2SF_zero, Prim2SF_256.
  unfold int_of_float, floor_of_float.
  destruct (Prim2SF y) as [s|s| |s m e] eqn:Hy; cbn [SFleb SFltb SFcompare].
  - intros _ _. exists 0. repeat split; lia.
  - destruct s; discriminate.
  - discriminate.
  - destruct s; [discriminate|]. intros _ Hlt.
    exists (Z.shiftl (Z.pos m) e). split; [reflexivity|]. split; [reflexivity|].
    pose proof (mantissa_bound y false m e Hy) as Hm.
    assert (He : e < -44 \/ (e = -44 /\ Z.pos m < 4503599627370496)).
    { destruct (Z.compare_spec e (-44)) as [->|Hlt'|Hgt]; [right|left; lia|discriminate].
      split; [reflexivity|].
      destruct (Pos.compare_cont Eq m 4503599627370496) eqn:Hc; try discriminate.
      exact Hc. }
    rewrite <- Z.shiftr_opp_r, Z.shiftr_div_pow2 by lia.
    split; [apply Z.div_pos; [lia|apply Z.pow_pos_nonneg; lia]|].
    apply Z.lt_succ_r. apply Z.div_lt_upper_bound; [apply Z.pow_pos_nonneg; lia|].
    change (Z.succ 255) with (2 ^ 8). rewrite <- Z.pow_add_r by lia.
    destruct He as [He|[-> Hm']].
    + apply Z.lt_le_trans with (1 := Hm). apply Z.pow_le_mono_r; lia.
    + exact Hm'.
Qed.

End FloatFacts.

(** ** The digest has 32 bytes *)

Section DigestFacts.
Import Py Derive.

Lemma sha256_length (msg : list byte) : length (Sha256.sha256 msg) = 32%nat.
Proof. unfold Sha256.sha256, Sha256.digest_of. now rewrite !length_app. Qed.

Lemma digest_shape (name : string) :
  exists b0 b1 b2 b3 b4 b5 b6 b7 rest,
    digest name = b0 :: b1 :: b2 :: b3 :: b4 :: b5 :: b6 :: b7 :: rest.
Proof.
  pose proof (sha256_length (encode_utf8 name)) as Hlen. unfold digest.
  destruct (Sha256.sha256 (encode_utf8 name))
    as [|b0 [|b1 [|b2 [|b3 [|b4 [|b5 [|b6 [|b7 rest]]]]]]]]; try discriminate.
  now exists b0, b1, b2, b3, b4, b5, b6, b7, rest.
Qed.

End DigestFacts.

(** ** The colour: every input converts, and stays in range *)

Section ColorFacts.
Import Py Colorsys Derive ColorRange.

(** The exhaustive checks: every pair [(m1, m2)] against every hue, and
    every byte. *)
Lemma hues_check : hues_ok m_table = true.
Proof. vm_compute. reflexivity. Qed. (* exhaustive *)

Lemma bytes_check : bytes_ok 256 = true.
Proof. vm_compute. reflexivity. Qed.

Lemma _v_split (m1 m2 hue : float) : _v m1 m2 hue = v_eval m1 m2 (v_case hue).
Proof.
  unfold _v, v_case.
  destruct (_ <? ONE_SIXTH)%float; [reflexivity|].
  destruct (_ <? 0.5)%float; [reflexivity|].
  now destruct (_ <? TWO_THIRD)%float.
Qed.

Lemma hls_to_rgb_split (h l s : float) :
  (s =? 0)%float = false ->
  hls_to_rgb h l s =
    (v_eval (fst (m12 (l, s))) (snd (m12 (l, s))) (v_case (h + ONE_THIRD)),
     v_eval (fst (m12 (l, s))) (snd (m12 (l, s))) (v_case h),
     v_eval (fst (m12 (l, s))) (snd (m12 (l, s))) (v_case (h - ONE_THIRD))).
Proof.
  intros Hs. unfold hls_to_rgb, m12. rewrite Hs. cbv zeta. cbn [fst snd].
  now rewrite !_v_split.
Qed.

Lemma case_ok_sound (tbl : list (float * float)) (m : float * float) (c : vcase) :
  In m tbl -> ends_ok m = true -> case_ok tbl c = true ->
  channel_ok (v_eval (fst m) (snd m) c) = true.
Proof.
  intros Hin Hends Hc. unfold ends_ok in Hends. apply andb_prop in Hends as [H1 H2].
  destruct c as [t| |u|]; cbn [case_ok v_eval] in *.
  - exact (proj1 (forallb_forall _ _) Hc m Hin).
  - exact H2.
  - exact (proj1 (forallb_forall _ _) Hc m Hin).
  - exact H1.
Qed.

Lemma hues_ok_sound (tbl : list (float * float)) (m : float * float) (hue : Z) :
  hues_ok tbl = true -> In m tbl -> 0 <= hue < 360 ->
  let h := (float_of_int hue / 360)%float in
  channel_ok (v_eval (fst m) (snd m) (v_case (h + ONE_THIRD))) = true /\
  channel_ok (v_eval (fst m) (snd m) (v_case h)) = true /\
  channel_ok (v_eval (fst m) (snd m) (v_case (h - ONE_THIRD))) = true.
Proof.
  intros Hall Hin Hhue h. unfold hues_ok in Hall. apply andb_prop in Hall as [He Hh].
  pose proof (proj1 (forallb_forall _ _) He m Hin) as Hends.
  pose proof (proj1 (forallb_forall _ _) Hh hue (proj2 (range_elem _ _) Hhue)) as Hhue'.
  unfold hue_ok in Hhue'. fold h in Hhue'.
  apply andb_prop in Hhue' as [H12 H3]. apply andb_prop in H12 as [H1 H2].
  repeat split; now apply (case_ok_sound tbl).
Qed.

Lemma bytes_ok_sound (n b : Z) : bytes_ok n = true -> 0 <= b < n -> byte_ok b = true.
Proof.
  intros Hall Hb. unfold bytes_ok in Hall.
  exact (proj1 (forallb_forall _ _) Hall b (proj2 (range_elem _ _) Hb)).
Qed.

Lemma byte_ok_sound (b : Z) :
  0 <= b < 256 ->
  (sat_float b =? 0)%float = false /\
  ((0.5 <=? sat_float b)%float = true /\ (sat_float b <=? 0.8)%float = true) /\
  ((0.4 <=? light_float b)%float = true /\ (light_float b <=? 0.65)%float = true).
Proof.
  intros Hb. pose proof (bytes_ok_sound 256 b bytes_check Hb) as H. unfold byte_ok in H.
  apply andb_prop in H as [H H5]. apply andb_prop in H as [H H4].
  apply andb_prop in H as [H H3]. apply andb_prop in H as [H1 H2].
  apply negb_true_iff in H1. tauto.
Qed.

Lemma m_table_elem (h2 h3 : Z) :
  0 <= h2 < 256 -> 0 <= h3 < 256 -> In (m12 (light_float h3, sat_float h2)) m_table.
Proof.
  intros H2 H3. unfold m_table. apply in_map. unfold ls_table.
  apply in_flat_map. exists h2. split.
  - now apply range_elem.
  - apply (in_map (fun l => (light_float l, sat_float h2))). now apply range_elem.
Qed.

(** Every hue and every pair of bytes gives channel values in [0, 1] whose
    scaled values lie in [0, 256). *)
Lemma rgb_floats_ok (hue h2 h3 : Z) :
  0 <= hue < 360 -> 0 <= h2 < 256 -> 0 <= h3 < 256 ->
  exists r g b, rgb_floats hue (light_float h3) (sat_float h2) = (r, g, b) /\
    channel_ok r = true /\ channel_ok g = true /\ channel_ok b = true.
Proof.
  intros Hhue H2 H3. unfold rgb_floats.
  rewrite hls_to_rgb_split by apply (byte_ok_sound h2 H2).
  destruct (hues_ok_sound m_table _ hue hues_check (m_table_elem h2 h3 H2 H3) Hhue)
    as (Hr & Hg & Hb).
  eauto 10.
Qed.

Lemma channel_ok_int (x : float) :
  channel_ok x = true ->
  (0 <=? x)%float = true /\ (x <=? 1)%float = true /\
  exists n, int_of_float (x * 255) = Ok n /\ floor_of_float (x * 255) = Some n /\
            0 <= n <= 255.
Proof.
  unfold channel_ok. cbv zeta. intros H.
  apply andb_prop in H as [H H4]. apply andb_prop in H as [H H3].
  apply andb_prop in H as [H1 H2].
  split; [exact H1|]. split; [exact H2|]. now apply int_of_float_small.
Qed.

End ColorFacts.

(** ** The grid loops *)

Section GridFacts.
Import Py Derive Grid.

Ltac bool_cases :=
  cbv beta;
  repeat match goal with
  | |- context [Z.eqb ?a ?b] => destruct (Z.eqb_spec a b)
  | |- context [Z.ltb ?a ?b] => destruct (Z.ltb_spec a b)
  end;
  cbn [andb]; subst; try reflexivity; try (exfalso; lia); try (f_equal; lia).

Lemma grid_is_ext (n : Z) (f f' : Z -> Z -> bool) (g : grid) :
  (forall r c, 0 <= r < n -> 0 <= c < n -> f r c = f' r c) ->
  grid_is n f g -> grid_is n f' g.
Proof.
  intros Hff [Hlen Hrows]. split; [exact Hlen|]. intros r Hr.
  destruct (Hrows r Hr) as (row & Hrow & Hrl & Hc).
  exists row. split; [exact Hrow|]. split; [exact Hrl|].
  intros c Hcr. rewrite <- Hff by assumption. now apply Hc.
Qed.

Lemma grid_is_unique (n : Z) (f : Z -> Z -> bool) (g g' : grid) :
  grid_is n f g -> grid_is n f g' -> g = g'.
Proof.
  intros [Hlen Hrows] [Hlen' Hrows']. apply list_eq. intros i.
  destruct (Nat.lt_ge_cases i (length g)) as [Hi|Hi].
  - destruct (Hrows (Z.of_nat i)) as (row & Hrow & Hrl & Hc); [lia|].
    destruct (Hrows' (Z.of_nat i)) as (row' & Hrow' & Hrl' & Hc'); [lia|].
    rewrite Nat2Z.id in Hrow, Hrow'. rewrite Hrow, Hrow'. f_equal.
    apply list_eq. intros j.
    destruct (Nat.lt_ge_cases j (length row)) as [Hj|Hj].
    + specialize (Hc (Z.of_nat j)). specialize (Hc' (Z.of_nat j)).
      rewrite Nat2Z.id in Hc, Hc'. rewrite Hc, Hc' by lia. reflexivity.
    + rewrite !(proj2 (lookup_ge_None _ _)) by lia. reflexivity.
  - rewrite !(proj2 (lookup_ge_None _ _)) by lia. reflexivity.
Qed.

Lemma grid_is_cell (n : Z) (f : Z -> Z -> bool) (g : grid) (r c : Z) :
  grid_is n f g -> 0 <= r < n -> 0 <= c < n -> cell g r c = Ok (f r c).
Proof.
  intros [Hlen Hrows] Hr Hc. destruct (Hrows r Hr) as (row & Hrow & Hrl & Hcells).
  unfold cell. rewrite (getitem_in g r row) by (lia || assumption).
  cbn [mbind result_bind]. apply getitem_in; [lia|]. now apply Hcells.
Qed.

Lemma grid_is_shape (n : Z) (f : Z -> Z -> bool) (g : grid) :
  grid_is n f g ->
  length g = Z.to_nat n /\ Forall (fun row => length row = Z.to_nat n) g.
Proof.
  intros [Hlen Hrows]. split; [lia|]. apply Forall_lookup. intros i row Hi.
  apply lookup_lt_Some in Hi as Hlt.
  destruct (Hrows (Z.of_nat i)) as (row' & Hrow' & Hrl & _); [lia|].
  rewrite Nat2Z.id in Hrow'. rewrite Hi in Hrow'. injection Hrow' as <-. lia.
Qed.

Lemma blank_grid_is (n : Z) : 0 <= n -> grid_is n (fun _ _ => false) (blank n).
Proof.
  intros Hn. unfold blank. split.
  - rewrite length_fmap, range_length. lia.
  - intros r Hr. exists (list_mul false n).
    split; [now rewrite list_lookup_fmap, range_lookup|].
    unfold list_mul. split; [rewrite length_replicate; lia|].
    intros c Hc. apply lookup_replicate_2. lia.
Qed.

(** One assignment [grid[row][col] = v]. *)
Lemma set_cell_grid_is (n : Z) (f : Z -> Z -> bool) (g : grid) (r c : Z) (v : bool) :
  grid_is n f g -> 0 <= r < n -> 0 <= c < n ->
  exists g', set_cell g r c v = Ok g' /\
    grid_is n (fun r' c' => if (r' =? r) && (c' =? c) then v else f r' c') g'.
Proof.
  intros [Hlen Hrows] Hr Hc. destruct (Hrows r Hr) as (row & Hrow & Hrl & Hcells).
  exists (<[Z.to_nat r := <[Z.to_nat c := v]> row]> g). split.
  - unfold set_cell. rewrite (getitem_in g r row) by (lia || assumption).
    cbn [mbind result_bind]. rewrite setitem_in by lia.
    cbn [mbind result_bind]. now rewrite setitem_in by lia.
  - split; [now rewrite length_insert|]. intros r' Hr'.
    destruct (Z.eqb_spec r' r) as [->|Hne].
    + exists (<[Z.to_nat c := v]> row).
      split; [apply list_lookup_insert_eq; lia|].
      split; [now rewrite length_insert|]. intros c' Hc'.
      destruct (Z.eqb_spec c' c) as [->|Hnc]; cbn [andb].
      * apply list_lookup_insert_eq. lia.
      * rewrite list_lookup_insert_ne by lia. now apply Hcells.
    + destruct (Hrows r' Hr') as (row' & Hrow' & Hrl' & Hcells').
      exists row'. split; [rewrite list_lookup_insert_ne by lia; exact Hrow'|].
      split; [exact Hrl'|]. intros c' Hc'. cbn [andb]. now apply Hcells'.
Qed.

(** The inner loop fills the left half of one row and mirrors it. *)
Lemma fill_row (gs half bits row : Z) (f : Z -> Z -> bool) (g : grid) :
  0 <= half -> 2 * half <= gs + 1 -> 0 <= row < gs ->
  grid_is gs f g ->
  exists g',
    for_each (range half) (fun col g =>
      let bit_index := row * half + col in
      let on := bool_of_int (Z.land bits (Z.shiftl 1 bit_index)) in
      g ← set_cell g row col on;
      set_cell g row (gs - 1 - col) on) g = Ok g' /\
    grid_is gs (partial bits half gs row half f) g'.
Proof.
  intros Hh Hh2 Hrow Hg.
  apply (for_each_range _ (fun k g => grid_is gs (partial bits half gs row k f) g));
    [exact Hh| |].
  - apply (grid_is_ext gs f); [|exact Hg].
    intros r c Hr Hc. unfold partial. bool_cases.
  - intros k t Hk Ht. cbv zeta.
    destruct (set_cell_grid_is gs _ t row k (on bits half row k) Ht)
      as (t1 & Ht1 & Hg1); [lia|lia|].
    destruct (set_cell_grid_is gs _ t1 row (gs - 1 - k) (on bits half row k) Hg1)
      as (t2 & Ht2 & Hg2); [lia|lia|].
    exists t2. split.
    + fold (on bits half row k). rewrite Ht1. cbn [mbind result_bind]. exact Ht2.
    + eapply grid_is_ext; [|exact Hg2].
      intros r c Hr Hc. unfold partial. bool_cases.
Qed.

(** The two loops leave every cell at its final value. *)
Lemma fill_spec (gs half bits : Z) :
  0 <= gs -> gs <= 2 * half <= gs + 1 ->
  exists g, Hybrid.fill gs half bits (blank gs) = Ok g /\
            grid_is gs (final bits half gs) g.
Proof.
  intros Hgs Hh. unfold Hybrid.fill.
  destruct (for_each_range
    (fun row g => for_each (range half) (fun col g =>
       let bit_index := row * half + col in
       let on := bool_of_int (Z.land bits (Z.shiftl 1 bit_index)) in
       g ← set_cell g row col on;
       set_cell g row (gs - 1 - col) on) g)
    (fun r g => grid_is gs (fun r' c' => if r' <? r then final bits half gs r' c' else false) g)
    gs (blank gs)) as (g & Hg & Hinv).
  - exact Hgs.
  - apply (grid_is_ext gs (fun _ _ => false)); [|now apply blank_grid_is].
    intros r c Hr Hc. bool_cases.
  - intros r t Hr Ht.
    destruct (fill_row gs half bits r _ t ltac:(lia) ltac:(lia) Hr Ht) as (t' & Ht' & Hg').
    exists t'. split; [exact Ht'|].
    eapply grid_is_ext; [|exact Hg'].
    intros r' c' Hr' Hc'. unfold partial, final. bool_cases.
  - exists g. split; [exact Hg|].
    eapply grid_is_ext; [|exact Hinv].
    intros r c Hr Hc. bool_cases.
Qed.

Lemma half_bounds (gs : Z) : 0 <= gs -> gs <= 2 * ((gs + 1) / 2) <= gs + 1.
Proof. intros Hgs. pose proof (Z.div_mod (gs + 1) 2). pose proof (Z.mod_pos_bound (gs + 1) 2). lia. Qed.

End GridFacts.

(** ** The two derivations as a whole *)

Section IdenticonFacts.
Import Py Colorsys Derive ColorRange Grid.

Lemma channel_ok_channel (x : float) :
  channel_ok x = true -> exists n, channel x n.
Proof.
  intros H. destruct (channel_ok_int x H) as (H0 & H1 & n & Hn & Hf & Hr).
  exists n. unfold channel. tauto.
Qed.

(** The colour of a digest with at least four bytes. *)
Lemma fg_color_spec (b0 b1 b2 b3 : byte) (rest : list byte) :
  let h := b0 :: b1 :: b2 :: b3 :: rest in
  let hue := Z.lor (int_of_byte b0) (Z.shiftl (int_of_byte b1) 8) mod 360 in
  let sat := sat_float (int_of_byte b2) in
  let light := light_float (int_of_byte b3) in
  hue_of h = Ok hue /\ sat_of h = Ok sat /\ light_of h = Ok light /\
  fg_color h = scale (rgb_floats hue light sat) /\
  exists r g b ri gi bi,
    rgb_floats hue light sat = (r, g, b) /\
    fg_color h = Ok (ri, gi, bi) /\
    channel r ri /\ channel g gi /\ channel b bi.
Proof.
  intros h hue sat light.
  assert (Hhue : hue_of h = Ok hue).
  { unfold hue_of. now rewrite (getitem_in h 0 b0), (getitem_in h 1 b1). }
  assert (Hsat : sat_of h = Ok sat).
  { unfold sat_of. now rewrite (getitem_in h 2 b2). }
  assert (Hlight : light_of h = Ok light).
  { unfold light_of. now rewrite (getitem_in h 3 b3). }
  assert (Hfg : fg_color h = scale (rgb_floats hue light sat)).
  { unfold fg_color. now rewrite Hhue, Hsat, Hlight. }
  repeat (split; [assumption|]).
  destruct (rgb_floats_ok hue (int_of_byte b2) (int_of_byte b3))
    as (r & g & b & Hrgb & Hr & Hg & Hb).
  { unfold hue. apply Z.mod_pos_bound. lia. }
  { apply int_of_byte_range. }
  { apply int_of_byte_range. }
  destruct (channel_ok_channel r Hr) as (ri & Hri).
  destruct (channel_ok_channel g Hg) as (gi & Hgi).
  destruct (channel_ok_channel b Hb) as (bi & Hbi).
  exists r, g, b, ri, gi, bi. split; [exact Hrgb|]. split; [|tauto].
  rewrite Hfg. fold sat light in Hrgb. rewrite Hrgb. unfold scale.
  destruct Hri as (_ & _ & -> & _). destruct Hgi as (_ & _ & -> & _).
  destruct Hbi as (_ & _ & -> & _). reflexivity.
Qed.

(** [identicon_data] returns for every grid size, and its grid is the
    final grid of the loops. *)
Lemma identicon_data_spec (name : string) (grid_size : Z) :
  exists color g,
    fg_color (digest name) = Ok color /\
    Hybrid.identicon_data name grid_size = Ok (color, g) /\
    grid_is (Z.max 0 grid_size)
      (final (bits_of name) ((grid_size + 1) / 2) grid_size) g.
Proof.
  destruct (digest_shape name) as (b0 & b1 & b2 & b3 & b4 & b5 & b6 & b7 & rest & Hd).
  destruct (fg_color_spec b0 b1 b2 b3 (b4 :: b5 :: b6 :: b7 :: rest))
    as (_ & _ & _ & _ & r & g & b & ri & gi & bi & _ & Hfg & _).
  cbv zeta in Hfg. rewrite <- Hd in Hfg.
  destruct (Z.le_gt_cases 0 grid_size) as [Hgs|Hgs].
  - destruct (fill_spec grid_size ((grid_size + 1) / 2) (bits_of name) Hgs
                (half_bounds grid_size Hgs)) as (gr & Hfill & Hgr).
    exists (ri, gi, bi), gr. split; [exact Hfg|]. split.
    + unfold Hybrid.identicon_data. cbv zeta. rewrite Hfg. cbn [mbind result_bind].
      fold (bits_of name). fold (blank grid_size). now rewrite Hfill.
    + now rewrite Z.max_r.
  - exists (ri, gi, bi), []. split; [exact Hfg|]. split.
    + unfold Hybrid.identicon_data, Hybrid.fill. cbv zeta. rewrite Hfg.
      cbn [mbind result_bind]. now rewrite range_nonpos by lia.
    + rewrite Z.max_l by lia. split; [reflexivity|]. intros row Hrow. lia.
Qed.

(** The pattern bits are the four bytes at offsets 4 to 7, and fit in 32
    bits. *)
Lemma bits_of_spec (name : string) :
  exists b4 b5 b6 b7,
    getitem (digest name) 4 = Ok b4 /\ getitem (digest name) 5 = Ok b5 /\
    getitem (digest name) 6 = Ok b6 /\ getitem (digest name) 7 = Ok b7 /\
    bits_of name = int_of_byte b4 + 256 * int_of_byte b5 + 65536 * int_of_byte b6
                   + 16777216 * int_of_byte b7 /\
    0 <= bits_of name < 2 ^ 32.
Proof.
  destruct (digest_shape name) as (b0 & b1 & b2 & b3 & b4 & b5 & b6 & b7 & rest & Hd).
  exists b4, b5, b6, b7. unfold bits_of. rewrite Hd.
  repeat (split; [now apply getitem_in|]).
  change (slice (b0 :: b1 :: b2 :: b3 :: b4 :: b5 :: b6 :: b7 :: rest) 4 8)
    with [b4; b5; b6; b7].
  cbn [int_from_bytes_little].
  pose proof (int_of_byte_range b4). pose proof (int_of_byte_range b5).
  pose proof (int_of_byte_range b6). pose proof (int_of_byte_range b7).
  change (2 ^ 32) with 4294967296. lia.
Qed.

Lemma testbit_above (bits i : Z) : 0 <= bits < 2 ^ 32 -> 32 <= i -> Z.testbit bits i = false.
Proof.
  intros Hb Hi. destruct (Z.eq_dec bits 0) as [->|Hne]; [apply Z.bits_0|].
  apply Z.bits_above_log2; [lia|].
  apply Z.lt_le_trans with 32; [|exact Hi]. apply Z.log2_lt_pow2; lia.
Qed.

End IdenticonFacts.

(** ** The final grid, cell by cell *)

Section CellFacts.
Import Py Derive Grid.

Lemma final_mirror (bits half gs row col : Z) :
  final bits half gs row (gs - 1 - col) = final bits half gs row col.
Proof.
  unfold final. replace (gs - 1 - (gs - 1 - col)) with col by lia.
  now rewrite Z.min_comm.
Qed.

Lemma final_left (bits half gs row col : Z) :
  2 * half <= gs + 1 -> 0 <= row -> 0 <= col < half ->
  final bits half gs row col = Z.testbit bits (row * half + col).
Proof.
  intros Hh Hrow Hcol. unfold final, on. rewrite Z.min_l by lia.
  apply land_shiftl_testbit. nia.
Qed.

(** The cells of the grid [identicon_data] returns. *)
Lemma identicon_data_cells (name : string) (gs : Z) :
  0 < gs ->
  exists color g,
    fg_color (digest name) = Ok color /\
    Hybrid.identicon_data name gs = Ok (color, g) /\
    forall row col, 0 <= row < gs -> 0 <= col < gs ->
      cell g row col = Ok (final (bits_of name) ((gs + 1) / 2) gs row col).
Proof.
  intros Hgs. destruct (identicon_data_spec name gs) as (color & g & Hfg & Hid & Hg).
  rewrite Z.max_r in Hg by lia.
  exists color, g. split; [exact Hfg|]. split; [exact Hid|].
  intros row col Hrow Hcol. now apply (grid_is_cell gs).
Qed.

End CellFacts.

(** ** SHA-256 test vectors (FIPS 180-4, appendix B) *)

Section Vectors.
Import Sha256.

Example sha256_empty :
  octets (sha256 (encode_utf8 "")) =
  [227; 176; 196; 66; 152; 252; 28; 20; 154; 251; 244; 200; 153; 111; 185; 36;
   39; 174; 65; 228; 100; 155; 147; 76; 164; 149; 153; 27; 120; 82; 184; 85].
Proof. vm_compute. reflexivity. Qed.

Example sha256_abc :
  octets (sha256 (encode_utf8 "abc")) =
  [186; 120; 22; 191; 143; 1; 207; 234; 65; 65; 64; 222; 93; 174; 34; 35;
   176; 3; 97; 163; 150; 23; 122; 156; 180; 16; 255; 97; 242; 0; 21; 173].
Proof. vm_compute. reflexivity. Qed.

Example sha256_two_blocks :
  octets (sha256 (encode_utf8 "abcdbcdecdefdefgefghfghighijhijkijkljklmklmnlmnomnopnopq")) =
  [36; 141; 106; 97; 210; 6; 56; 184; 229; 192; 38; 147; 12; 62; 96; 57;
   163; 60; 228; 89; 100; 255; 33; 103; 246; 236; 237; 212; 25; 219; 6; 193].
Proof. vm_compute. reflexivity. Qed.

End Vectors.

(** ** The specification, claim by claim *)

Section Claims.
Import Py Colorsys Derive ColorRange Grid.

(** C2 (mirror symmetry).  For every name and every positive odd grid size
    [N], the call returns a grid with [grid[row][col] == grid[row][N-1-col]]
    for every row and column in [0, N). *)
Theorem grid_mirror_symmetric (name : string) (grid_size : Z) :
  0 < grid_size -> Z.odd grid_size = true ->
  exists color g,
    Hybrid.identicon_data name grid_size = Ok (color, g) /\
    forall row col, 0 <= row < grid_size -> 0 <= col < grid_size ->
      exists b, cell g row col = Ok b /\ cell g row (grid_size - 1 - col) = Ok b.
Proof.
  intros Hpos Hodd.
  destruct (identicon_data_cells name grid_size Hpos) as (color & g & _ & Hid & Hcells).
  exists color, g. split; [exact Hid|]. intros row col Hrow Hcol.
  exists (final (bits_of name) ((grid_size + 1) / 2) grid_size row col).
  split; [now apply Hcells|].
  rewrite Hcells by lia. now rewrite final_mirror.
Qed.

Lemma grid_mirror_symmetric_witness :
  (0 < 5 /\ Z.odd 5 = true) /\
  exists color g,
    Hybrid.identicon_data "main" 5 = Ok (color, g) /\
    forall row col, 0 <= row < 5 -> 0 <= col < 5 ->
      exists b, cell g row col = Ok b /\ cell g row (5 - 1 - col) = Ok b.
Proof.
  split; [split; reflexivity|].
  apply (grid_mirror_symmetric "main" 5); reflexivity.
Defined.

(** C4 (grid fill).  For every name and every positive odd grid size, with
    [half = (grid_size + 1) / 2] and [bits] the little-endian unsigned
    integer in digest bytes 4 to 7, the cell at [(row, col)] with
    [col < half] is [((bits >> (row * half + col)) & 1) != 0], and so is the
    cell at [(row, grid_size - 1 - col)]. *)
Theorem grid_fill_bits (name : string) (grid_size : Z) :
  0 < grid_size -> Z.odd grid_size = true ->
  exists d4 d5 d6 d7 color g,
    getitem (digest name) 4 = Ok d4 /\ getitem (digest name) 5 = Ok d5 /\
    getitem (digest name) 6 = Ok d6 /\ getitem (digest name) 7 = Ok d7 /\
    Hybrid.identicon_data name grid_size = Ok (color, g) /\
    let half := (grid_size + 1) / 2 in
    let bits := int_of_byte d4 + 256 * int_of_byte d5 + 65536 * int_of_byte d6
                + 16777216 * int_of_byte d7 in
    forall row col, 0 <= row < grid_size -> 0 <= col < half ->
      let on := negb (Z.land (Z.shiftr bits (row * half + col)) 1 =? 0) in
      cell g row col = Ok on /\ cell g row (grid_size - 1 - col) = Ok on.
Proof.
  intros Hpos Hodd.
  destruct (bits_of_spec name) as (d4 & d5 & d6 & d7 & H4 & H5 & H6 & H7 & Hbits & _).
  destruct (identicon_data_cells name grid_size Hpos) as (color & g & _ & Hid & Hcells).
  exists d4, d5, d6, d7, color, g. repeat (split; [assumption|]).
  intros half bits row col Hrow Hcol on.
  pose proof (half_bounds grid_size ltac:(lia)) as Hh. fold half in Hh.
  assert (Hon : final (bits_of name) half grid_size row col = on).
  { rewrite final_left by lia. unfold on. rewrite shiftr_land_testbit by nia.
    now rewrite Hbits. }
  split.
  - rewrite Hcells by lia. fold half. now rewrite Hon.
  - rewrite Hcells by lia. fold half. now rewrite final_mirror, Hon.
Qed.

Lemma grid_fill_bits_witness :
  (0 < 5 /\ Z.odd 5 = true) /\
  exists d4 d5 d6 d7 color g,
    getitem (digest "main") 4 = Ok d4 /\ getitem (digest "main") 5 = Ok d5 /\
    getitem (digest "main") 6 = Ok d6 /\ getitem (digest "main") 7 = Ok d7 /\
    Hybrid.identicon_data "main" 5 = Ok (color, g) /\
    let half := (5 + 1) / 2 in
    let bits := int_of_byte d4 + 256 * int_of_byte d5 + 65536 * int_of_byte d6
                + 16777216 * int_of_byte d7 in
    forall row col, 0 <= row < 5 -> 0 <= col < half ->
      let on := negb (Z.land (Z.shiftr bits (row * half + col)) 1 =? 0) in
      cell g row col = Ok on /\ cell g row (5 - 1 - col) = Ok on.
Proof.
  split; [split; reflexivity|].
  apply (grid_fill_bits "main" 5); reflexivity.
Defined.

(** C5 (hue).  For every name the hue is [(digest[0] | (digest[1] << 8)) mod
    360]: the little-endian 16-bit read of the first two digest bytes,
    reduced modulo 360, an integer in [0, 359]; it is the hue the colour is
    computed from. *)
Theorem hue_little_endian_mod_360 (name : string) :
  exists d0 d1 hue sat light,
    getitem (digest name) 0 = Ok d0 /\ getitem (digest name) 1 = Ok d1 /\
    hue_of (digest name) = Ok hue /\
    hue = Z.lor (int_of_byte d0) (Z.shiftl (int_of_byte d1) 8) mod 360 /\
    hue = int_from_bytes_little [d0; d1] mod 360 /\
    0 <= hue <= 359 /\
    sat_of (digest name) = Ok sat /\ light_of (digest name) = Ok light /\
    fg_color (digest name) = scale (rgb_floats hue light sat).
Proof.
  destruct (digest_shape name) as (b0 & b1 & b2 & b3 & b4 & b5 & b6 & b7 & rest & Hd).
  destruct (fg_color_spec b0 b1 b2 b3 (b4 :: b5 :: b6 :: b7 :: rest))
    as (Hhue & Hsat & Hlight & Hfg & _).
  cbv zeta in Hhue, Hsat, Hlight, Hfg. rewrite <- Hd in Hhue, Hsat, Hlight, Hfg.
  eexists b0, b1, _, _, _.
  split; [rewrite Hd; now apply getitem_in|].
  split; [rewrite Hd; now apply getitem_in|].
  split; [exact Hhue|]. split; [reflexivity|].
  split.
  { cbn [int_from_bytes_little]. rewrite lor_shiftl_bytes by apply int_of_byte_range.
    f_equal. lia. }
  split.
  { pose proof (Z.mod_pos_bound
      (Z.lor (int_of_byte b0) (Z.shiftl (int_of_byte b1) 8)) 360 ltac:(lia)).
    lia. }
  split; [exact Hsat|]. split; [exact Hlight|]. exact Hfg.
Qed.

(** C6 (ranges).  For every name and valid grid size the three channels of
    the returned colour are integers in [0, 255]; the hue is in [0, 359];
    [sat = 0.5 + (digest[2] / 255.0) * 0.3] lies between the floats [0.5]
    and [0.8], and [light = 0.4 + (digest[3] / 255.0) * 0.25] between the
    floats [0.4] and [0.65]. *)
Theorem color_channels_in_range (name : string) (grid_size : Z) :
  0 < grid_size -> Z.odd grid_size = true ->
  exists d2 d3 hue sat light ri gi bi g,
    getitem (digest name) 2 = Ok d2 /\ getitem (digest name) 3 = Ok d3 /\
    hue_of (digest name) = Ok hue /\
    sat_of (digest name) = Ok sat /\ light_of (digest name) = Ok light /\
    sat = (0.5 + (float_of_int (int_of_byte d2) / 255) * 0.3)%float /\
    light = (0.4 + (float_of_int (int_of_byte d3) / 255) * 0.25)%float /\
    Hybrid.identicon_data name grid_size = Ok ((ri, gi, bi), g) /\
    (0 <= ri <= 255 /\ 0 <= gi <= 255 /\ 0 <= bi <= 255) /\
    0 <= hue <= 359 /\
    ((0.5 <=? sat)%float = true /\ (sat <=? 0.8)%float = true) /\
    ((0.4 <=? light)%float = true /\ (light <=? 0.65)%float = true).
Proof.
  intros Hpos Hodd.
  destruct (digest_shape name) as (b0 & b1 & b2 & b3 & b4 & b5 & b6 & b7 & rest & Hd).
  destruct (fg_color_spec b0 b1 b2 b3 (b4 :: b5 :: b6 :: b7 :: rest))
    as (Hhue & Hsat & Hlight & _ & r & g & b & ri & gi & bi & _ & Hfg & Hr & Hg & Hb).
  cbv zeta in Hhue, Hsat, Hlight, Hfg. rewrite <- Hd in Hhue, Hsat, Hlight, Hfg.
  destruct (identicon_data_spec name grid_size) as (color & gr & Hfg' & Hid & _).
  rewrite Hfg in Hfg'. injection Hfg' as <-.
  eexists b2, b3, _, _, _, ri, gi, bi, gr.
  split; [rewrite Hd; now apply getitem_in|].
  split; [rewrite Hd; now apply getitem_in|].
  split; [exact Hhue|]. split; [exact Hsat|]. split; [exact Hlight|].
  split; [reflexivity|]. split; [reflexivity|]. split; [exact Hid|].
  split; [unfold channel in Hr, Hg, Hb; tauto|].
  split.
  { pose proof (Z.mod_pos_bound
      (Z.lor (int_of_byte b0) (Z.shiftl (int_of_byte b1) 8)) 360 ltac:(lia)).
    lia. }
  split.
  - apply (byte_ok_sound (int_of_byte b2)), int_of_byte_range.
  - apply (byte_ok_sound (int_of_byte b3)), int_of_byte_range.
Qed.

Lemma color_channels_in_range_witness :
  (0 < 5 /\ Z.odd 5 = true) /\
  exists d2 d3 hue sat light ri gi bi g,
    getitem (digest "main") 2 = Ok d2 /\ getitem (digest "main") 3 = Ok d3 /\
    hue_of (digest "main") = Ok hue /\
    sat_of (digest "main") = Ok sat /\ light_of (digest "main") = Ok light /\
    sat = (0.5 + (float_of_int (int_of_byte d2) / 255) * 0.3)%float /\
    light = (0.4 + (float_of_int (int_of_byte d3) / 255) * 0.25)%float /\
    Hybrid.identicon_data "main" 5 = Ok ((ri, gi, bi), g) /\
    (0 <= ri <= 255 /\ 0 <= gi <= 255 /\ 0 <= bi <= 255) /\
    0 <= hue <= 359 /\
    ((0.5 <=? sat)%float = true /\ (sat <=? 0.8)%float = true) /\
    ((0.4 <=? light)%float = true /\ (light <=? 0.65)%float = true).
Proof.
  split; [split; reflexivity|].
  apply (color_channels_in_range "main" 5); reflexivity.
Defined.

(** C7 (scaling).  For every name each channel of the colour is the
    [hls_to_rgb] channel value, a float in [0, 1], multiplied by 255 and
    cut down to the integer below it; for the name [main] the green channel
    202 differs from the nearest integer 203. *)
Theorem channels_scaled_and_floored :
  (forall name : string,
     exists hue sat light r g b ri gi bi,
       hue_of (digest name) = Ok hue /\ sat_of (digest name) = Ok sat /\
       light_of (digest name) = Ok light /\
       rgb_floats hue light sat = (r, g, b) /\
       fg_color (digest name) = Ok (ri, gi, bi) /\
       (forall grid_size, exists g0,
          Hybrid.identicon_data name grid_size = Ok ((ri, gi, bi), g0)) /\
       ((0 <=? r)%float = true /\ (r <=? 1)%float = true /\
        int_of_float (r * 255) = Ok ri /\ floor_of_float (r * 255) = Some ri) /\
       ((0 <=? g)%float = true /\ (g <=? 1)%float = true /\
        int_of_float (g * 255) = Ok gi /\ floor_of_float (g * 255) = Some gi) /\
       ((0 <=? b)%float = true /\ (b <=? 1)%float = true /\
        int_of_float (b * 255) = Ok bi /\ floor_of_float (b * 255) = Some bi)) /\
  (fg_color (digest "main") = Ok (125, 202, 61) /\
   exists hue sat light r g b,
     hue_of (digest "main") = Ok hue /\ sat_of (digest "main") = Ok sat /\
     light_of (digest "main") = Ok light /\
     rgb_floats hue light sat = (r, g, b) /\
     nearest_of_float (g * 255) = Some 203).
Proof.
  split.
  - intros name.
    destruct (digest_shape name) as (b0 & b1 & b2 & b3 & b4 & b5 & b6 & b7 & rest & Hd).
    destruct (fg_color_spec b0 b1 b2 b3 (b4 :: b5 :: b6 :: b7 :: rest))
      as (Hhue & Hsat & Hlight & _ & r & g & b & ri & gi & bi & Hrgb & Hfg & Hr & Hg & Hb).
    cbv zeta in Hhue, Hsat, Hlight, Hfg, Hrgb.
    rewrite <- Hd in Hhue, Hsat, Hlight, Hfg.
    eexists _, _, _, r, g, b, ri, gi, bi.
    split; [exact Hhue|]. split; [exact Hsat|]. split; [exact Hlight|].
    split; [exact Hrgb|]. split; [exact Hfg|]. split.
    + intros grid_size.
      destruct (identicon_data_spec name grid_size) as (color & gr & Hfg' & Hid & _).
      rewrite Hfg in Hfg'. injection Hfg' as <-. now exists gr.
    + unfold channel in Hr, Hg, Hb. tauto.
  - split; [vm_compute; reflexivity|].
    eexists _, _, _, _, _, _.
    split; [vm_compute; reflexivity|]. split; [vm_compute; reflexivity|].
    split; [vm_compute; reflexivity|]. split; [vm_compute; reflexivity|].
    vm_compute. reflexivity.
Qed.

(** C8 (empty name).  [identicon_data("", 5)] does not fail: the empty
    string encodes to no bytes, its digest is SHA-256 of the empty byte
    sequence, and the call returns the colour and the 5 by 5 grid below, the
    same at every call. *)
Theorem empty_name_well_defined :
  encode_utf8 "" = [] /\
  Sha256.octets (digest "") =
    [227; 176; 196; 66; 152; 252; 28; 20; 154; 251; 244; 200; 153; 111; 185; 36;
     39; 174; 65; 228; 100; 155; 147; 76; 164; 149; 153; 27; 120; 82; 184; 85] /\
  forall run, run = Hybrid.identicon_data "" 5 ->
    run = Ok ((156, 31, 205),
              [ [false; false; false; false; false];
                [true; true; false; true; true];
                [false; true; false; true; false];
                [false; true; true; true; false];
                [true; true; true; true; true] ]).
Proof.
  split; [reflexivity|]. split; [vm_compute; reflexivity|].
  intros run ->. vm_compute. reflexivity.
Qed.

Lemma testbit_low16 (a b c d i : Z) :
  0 <= a < 256 -> 0 <= b < 256 -> 0 <= i < 16 ->
  Z.testbit (a + 256 * b + 65536 * c + 16777216 * d) i =
  Z.testbit (Z.lor a (Z.shiftl b 8)) i.
Proof.
  intros Ha Hb Hi. rewrite lor_shiftl_bytes by exact Ha.
  rewrite <- (Z.mod_pow2_bits_low (a + 256 * b + 65536 * c + 16777216 * d) 16 i) by lia.
  f_equal. change (2 ^ 16) with 65536.
  replace (a + 256 * b + 65536 * c + 16777216 * d)
    with (a + 256 * b + (c + 256 * d) * 65536) by lia.
  rewrite Z_mod_plus_full. apply Z.mod_small. lia.
Qed.

(** C9 (the two prototypes agree).  For every name,
    [generate_identicon_data(name)], which reads its pattern bits from
    digest bytes 4 and 5, returns what [identicon_data(name, 5)] returns
    from its four-byte read: a 5 by 5 grid uses bits 0 to 14 only. *)
Theorem generate_identicon_data_agrees (name : string) :
  Identicon.generate_identicon_data name = Hybrid.identicon_data name 5.
Proof.
  destruct (bits_of_spec name) as (d4 & d5 & d6 & d7 & H4 & H5 & _ & _ & Hbits & _).
  unfold Identicon.generate_identicon_data, Hybrid.identicon_data. cbv zeta.
  destruct (fg_color (digest name)) as [color|e]; [|reflexivity].
  cbn [mbind result_bind]. rewrite H4, H5. cbn [mbind result_bind].
  fold (bits_of name). fold (blank 5).
  change ((5 + 1) / 2) with 3.
  change (Identicon.fill (Z.lor (int_of_byte d4) (Z.shiftl (int_of_byte d5) 8)) (blank 5))
    with (Hybrid.fill 5 3 (Z.lor (int_of_byte d4) (Z.shiftl (int_of_byte d5) 8)) (blank 5)).
  destruct (fill_spec 5 3 (Z.lor (int_of_byte d4) (Z.shiftl (int_of_byte d5) 8)))
    as (g1 & Hf1 & Hg1); [lia|lia|].
  destruct (fill_spec 5 3 (bits_of name)) as (g2 & Hf2 & Hg2); [lia|lia|].
  rewrite Hf1, Hf2. cbn [mbind result_bind]. do 3 f_equal.
  apply (grid_is_unique 5 _ g1 g2 Hg1).
  eapply grid_is_ext; [|exact Hg2].
  intros r c Hr Hc. unfold final, on. rewrite !land_shiftl_testbit by lia.
  rewrite Hbits. apply testbit_low16; try apply int_of_byte_range. lia.
Qed.

(** C10 (bits beyond the digest window).  For every name and every odd
    grid size of at least 9, where [grid_size * half] exceeds 32, every cell
    whose bit index [row * half + col] is 32 or more is [False], and so is
    its mirror image: the pattern is read from digest bytes 4 to 7 alone. *)
Theorem high_bits_unset (name : string) (grid_size : Z) :
  9 <= grid_size -> Z.odd grid_size = true ->
  exists color g,
    Hybrid.identicon_data name grid_size = Ok (color, g) /\
    let half := (grid_size + 1) / 2 in
    32 < grid_size * half /\
    bits_of name = int_from_bytes_little (slice (digest name) 4 8) /\
    0 <= bits_of name < 2 ^ 32 /\
    forall row col, 0 <= row < grid_size -> 0 <= col < half ->
      32 <= row * half + col ->
      cell g row col = Ok false /\ cell g row (grid_size - 1 - col) = Ok false.
Proof.
  intros Hgs Hodd.
  destruct (bits_of_spec name) as (d4 & d5 & d6 & d7 & _ & _ & _ & _ & _ & Hbits).
  destruct (identicon_data_cells name grid_size ltac:(lia)) as (color & g & _ & Hid & Hcells).
  exists color, g. split; [exact Hid|]. intros half.
  pose proof (half_bounds grid_size ltac:(lia)) as Hh. fold half in Hh.
  split; [nia|]. split; [reflexivity|]. split; [exact Hbits|].
  intros row col Hrow Hcol Hidx.
  assert (Hoff : final (bits_of name) half grid_size row col = false).
  { rewrite final_left by lia. now apply testbit_above. }
  split.
  - rewrite Hcells by lia. fold half. now rewrite Hoff.
  - rewrite Hcells by lia. fold half. now rewrite final_mirror, Hoff.
Qed.

Lemma high_bits_unset_witness :
  (9 <= 9 /\ Z.odd 9 = true) /\
  exists color g,
    Hybrid.identicon_data "x" 9 = Ok (color, g) /\
    let half := (9 + 1) / 2 in
    32 < 9 * half /\
    bits_of "x" = int_from_bytes_little (slice (digest "x") 4 8) /\
    0 <= bits_of "x" < 2 ^ 32 /\
    forall row col, 0 <= row < 9 -> 0 <= col < half ->
      32 <= row * half + col ->
      cell g row col = Ok false /\ cell g row (9 - 1 - col) = Ok false.
Proof.
  split; [split; [discriminate|reflexivity]|].
  apply (high_bits_unset "x" 9); [discriminate|reflexivity].
Defined.

(** C3, as stated, fails: neither call signals an error. *)
Lemma invalid_grid_size_not_rejected :
  ~ (exists e, Hybrid.identicon_data "x" 4 = Err e) /\
  ~ (exists e, Hybrid.identicon_data "x" 0 = Err e).
Proof.
  assert (H4 : Hybrid.identicon_data "x" 4 =
               Ok ((56, 180, 166),
                   [ [true; true; true; true]; [true; false; false; true];
                     [true; true; true; true]; [false; true; true; false] ]))
    by (vm_compute; reflexivity).
  assert (H0 : Hybrid.identicon_data "x" 0 = Ok ((56, 180, 166), []))
    by (vm_compute; reflexivity).
  split; intros [e He]; [rewrite H4 in He|rewrite H0 in He]; discriminate.
Qed.

(** C3, amended.  A call with an even grid size, 0 included, signals no
    error: it returns a colour and a grid of [grid_size] rows of
    [grid_size] cells, none when [grid_size] is 0. *)
Theorem even_grid_size_returns (name : string) (grid_size : Z) :
  Z.even grid_size = true ->
  exists color g,
    Hybrid.identicon_data name grid_size = Ok (color, g) /\
    length g = Z.to_nat grid_size /\
    Forall (fun row => length row = Z.to_nat grid_size) g.
Proof.
  intros _.
  destruct (identicon_data_spec name grid_size) as (color & g & _ & Hid & Hg).
  exists color, g. split; [exact Hid|].
  destruct (grid_is_shape _ _ _ Hg) as [Hlen Hrows].
  split; [lia|]. eapply Forall_impl; [exact Hrows|]. cbv beta. intros row Hrow. lia.
Qed.

Lemma even_grid_size_returns_witness :
  Z.even 4 = true /\
  exists color g,
    Hybrid.identicon_data "x" 4 = Ok (color, g) /\
    length g = Z.to_nat 4 /\
    Forall (fun row => length row = Z.to_nat 4) g.
Proof.
  split; [reflexivity|].
  apply (even_grid_size_returns "x" 4). reflexivity.
Defined.

End Claims.

(** ** Loops that only add calls *)

Section EmitFacts.
Import Py.

(** A loop whose body appends [f x] to the state appends them all, in
    order. *)
Lemma for_each_emit {A B : Type} (xs : list A)
    (body : A -> list B -> result (list B)) (f : A -> list B) :
  (forall x log, In x xs -> body x log = Ok (log ++ f x)) ->
  forall log, for_each xs body log = Ok (log ++ flat_map f xs).
Proof.
  induction xs as [|x xs IH]; intros Hbody log.
  - cbn. now rewrite app_nil_r.
  - cbn [for_each flat_map]. rewrite (Hbody x log) by now left.
    cbn [mbind result_bind]. rewrite IH by (intros y l Hy; apply Hbody; now right).
    now rewrite app_assoc.
Qed.

(** A loop whose body raises [e] or returns does the same. *)
Lemma for_each_raises_or_returns {A St : Type} (xs : list A)
    (body : A -> St -> result St) (e : exn) :
  (forall x s, In x xs -> body x s = Err e \/ exists s', body x s = Ok s') ->
  forall s, for_each xs body s = Err e \/ exists s', for_each xs body s = Ok s'.
Proof.
  induction xs as [|x xs IH]; intros Hbody s.
  - right. now exists s.
  - cbn [for_each]. destruct (Hbody x s ltac:(now left)) as [->|[s' ->]].
    + now left.
    + cbn [mbind result_bind]. apply IH. intros y t Hy. apply Hbody. now right.
Qed.

(** Such a loop raises [e] when the body raises it at one of the
    elements, whatever the state. *)
Lemma for_each_raises {A St : Type} (xs : list A)
    (body : A -> St -> result St) (e : exn) (x : A) :
  In x xs -> (forall s, body x s = Err e) ->
  (forall y s, In y xs -> body y s = Err e \/ exists s', body y s = Ok s') ->
  forall s, for_each xs body s = Err e.
Proof.
  induction xs as [|y xs IH]; intros Hx Hraise Hbody s; [destruct Hx|].
  cbn [for_each]. destruct Hx as [->|Hx].
  - now rewrite Hraise.
  - destruct (Hbody y s ltac:(now left)) as [->|[s' ->]]; [reflexivity|].
    cbn [mbind result_bind]. apply IH; [exact Hx|exact Hraise|].
    intros z t Hz. apply Hbody. now right.
Qed.

Lemma flat_map_single {A B : Type} (h : A -> B) (xs : list A) :
  flat_map (fun x => [h x]) xs = List.map h xs.
Proof. induction xs as [|x xs IH]; cbn; [reflexivity|now rewrite IH]. Qed.

Lemma length_flat_map_uniform {A B : Type} (f : A -> list B) (xs : list A) (n : nat) :
  (forall a, In a xs -> length (f a) = n) ->
  length (flat_map f xs) = (length xs * n)%nat.
Proof.
  induction xs as [|a xs IH]; intros Hlen; [reflexivity|].
  cbn [flat_map length]. rewrite length_app, (Hlen a) by now left.
  rewrite IH by (intros b Hb; apply Hlen; now right). lia.
Qed.

Lemma lookup_flat_map_uniform {A B : Type} (f : A -> list B) (xs : list A)
    (n i j : nat) (x : A) :
  (forall a, In a xs -> length (f a) = n) ->
  xs !! i = Some x -> (j < n)%nat ->
  flat_map f xs !! (i * n + j)%nat = f x !! j.
Proof.
  revert i. induction xs as [|a xs IH]; intros i Hlen Hi Hj; [discriminate|].
  cbn [flat_map]. destruct i as [|i].
  - injection Hi as ->. cbn [Nat.mul Nat.add].
    apply lookup_app_l. rewrite (Hlen x) by now left. exact Hj.
  - cbn in Hi. rewrite lookup_app_r by (rewrite (Hlen a) by (now left); lia).
    rewrite (Hlen a) by now left.
    replace (S i * n + j - n)%nat with (i * n + j)%nat by lia.
    apply IH; [intros b Hb; apply Hlen; now right|exact Hi|exact Hj].
Qed.

End EmitFacts.

(** ** [ImageDraw]: accepted and refused boxes *)

Section PilFacts.
Import Py Derive Pil.

Lemma rectangle_ok (draw : canvas) (x0 y0 x1 y1 : Z) (fill : rgb) :
  x0 <= x1 -> y0 <= y1 ->
  rectangle draw x0 y0 x1 y1 fill = Ok (draw ++ [Rectangle x0 y0 x1 y1 fill]).
Proof.
  intros Hx Hy. unfold rectangle, refused.
  destruct (Z.ltb_spec x1 x0); [lia|]. destruct (Z.ltb_spec y1 y0); [lia|].
  reflexivity.
Qed.

Lemma rectangle_refused (draw : canvas) (x0 y0 x1 y1 : Z) (fill : rgb) :
  x1 < x0 \/ y1 < y0 ->
  rectangle draw x0 y0 x1 y1 fill = Err ValueError.
Proof.
  intros H. unfold rectangle, refused.
  destruct (Z.ltb_spec x1 x0); [reflexivity|].
  destruct (Z.ltb_spec y1 y0); [reflexivity|lia].
Qed.

Lemma ellipse_ok (draw : canvas) (x0 y0 x1 y1 : Z) (fill : rgb) :
  x0 <= x1 -> y0 <= y1 ->
  ellipse draw x0 y0 x1 y1 fill = Ok (draw ++ [Ellipse x0 y0 x1 y1 fill]).
Proof.
  intros Hx Hy. unfold ellipse, refused.
  destruct (Z.ltb_spec x1 x0); [lia|]. destruct (Z.ltb_spec y1 y0); [lia|].
  reflexivity.
Qed.

End PilFacts.

(** ** [draw_tile]: the calls it makes *)

Section TileFacts.
Import Py Derive Grid Pil Tile.

(** The two loops paint every cell, row by row, when a cell is at least
    one pixel wide and high. *)
Lemma draw_cells_spec (n : Z) (on : Z -> Z -> bool) (g : grid)
    (gx gy cell_w cell_h : Z) (fg_color dim_color : rgb) (draw : canvas) :
  grid_is (Z.max 0 n) on g ->
  (0 < n -> 1 <= cell_w /\ 1 <= cell_h) ->
  draw_cells g n gx gy cell_w cell_h fg_color dim_color draw =
  Ok (draw ++ flat_map (fun row =>
        List.map (fun col =>
          cell_rect gx gy cell_w cell_h row col
                    (if on row col then fg_color else dim_color))
          (range n)) (range n)).
Proof.
  intros Hg Hcell. unfold draw_cells. apply for_each_emit.
  intros row log Hrow. apply range_elem in Hrow.
  rewrite <- flat_map_single. apply for_each_emit.
  intros col log' Hcol. apply range_elem in Hcol. cbv zeta.
  rewrite (grid_is_cell (Z.max 0 n) on g row col Hg) by lia.
  cbn [mbind result_bind]. unfold cell_rect.
  destruct (on row col); apply rectangle_ok; lia.
Qed.

(** A cell less than one pixel wide or high is refused: the first cell
    raises [ValueError]. *)
Lemma draw_cells_refused (n : Z) (on : Z -> Z -> bool) (g : grid)
    (gx gy cell_w cell_h : Z) (fg_color dim_color : rgb) (draw : canvas) :
  grid_is (Z.max 0 n) on g ->
  0 < n -> cell_w < 1 \/ cell_h < 1 ->
  draw_cells g n gx gy cell_w cell_h fg_color dim_color draw = Err ValueError.
Proof.
  intros Hg Hn Hcell. unfold draw_cells, range.
  destruct (Z.to_nat n) as [|k] eqn:Hk; [lia|].
  change (Z.of_nat <$> seq 0 (S k)) with (0 :: (Z.of_nat <$> seq 1 k)).
  cbn [for_each]. cbv zeta.
  rewrite (grid_is_cell (Z.max 0 n) on g 0 0 Hg) by lia.
  cbn [mbind result_bind].
  destruct (on 0 0); rewrite rectangle_refused by lia; reflexivity.
Qed.

(** What a call of [draw_tile] with a grid size other than 0 does when
    none of its boxes is refused: the background, the cells, then the
    status dot when it is asked for. *)
Lemma draw_tile_spec (draw : canvas) (x y tile_w tile_h : Z) (name : string)
    (grid_size : Z) (show_status : bool) (scale : Z) :
  grid_size <> 0 -> 1 <= tile_w -> 1 <= tile_h ->
  (0 < grid_size ->
   grid_size <= tile_w - 8 * scale /\ grid_size <= tile_h - 8 * scale) ->
  (show_status = true -> 0 <= scale) ->
  exists color g,
    Hybrid.identicon_data name grid_size = Ok (color, g) /\
    grid_is (Z.max 0 grid_size)
            (final (bits_of name) ((grid_size + 1) / 2) grid_size) g /\
    draw_tile draw x y tile_w tile_h name grid_size show_status scale =
    Done (draw ++ background x y tile_w tile_h ::
            cells x y tile_w tile_h grid_size scale
                  (final (bits_of name) ((grid_size + 1) / 2) grid_size) color ++
            (if show_status then [status_dot x y tile_w scale] else [])).
Proof.
  intros Hgs Hw Hh Hroom Hdot.
  destruct (identicon_data_spec name grid_size) as (color & g & _ & Hid & Hg).
  exists color, g. split; [exact Hid|]. split; [exact Hg|].
  unfold draw_tile. rewrite Hid. cbn [lift mbind outcome_bind]. cbv zeta.
  rewrite rectangle_ok by lia. cbn [lift mbind outcome_bind].
  unfold floordiv. destruct (Z.eqb_spec grid_size 0) as [|_]; [contradiction|].
  cbn [mbind outcome_bind].
  rewrite (draw_cells_spec grid_size _ g _ _ _ _ _ _ _ Hg).
  2:{ intros Hpos. destruct (Hroom Hpos) as [Hrw Hrh].
      split; apply Z.div_le_lower_bound; lia. }
  cbn [lift mbind outcome_bind].
  destruct show_status.
  - rewrite ellipse_ok by (specialize (Hdot eq_refl); lia).
    cbn [lift]. f_equal. rewrite <- !app_assoc. reflexivity.
  - f_equal. rewrite app_nil_r, <- !app_assoc. reflexivity.
Qed.

Lemma cells_length (x y tile_w tile_h grid_size scale : Z) (on : Z -> Z -> bool)
    (fg_color : rgb) :
  length (cells x y tile_w tile_h grid_size scale on fg_color) =
  (Z.to_nat grid_size * Z.to_nat grid_size)%nat.
Proof.
  unfold cells. rewrite (length_flat_map_uniform _ _ (Z.to_nat grid_size)).
  - now rewrite range_length.
  - intros row _. now rewrite length_map, range_length.
Qed.

Lemma cells_lookup (x y tile_w tile_h grid_size scale : Z) (on : Z -> Z -> bool)
    (fg_color : rgb) (row col : Z) :
  0 <= row < grid_size -> 0 <= col < grid_size ->
  cells x y tile_w tile_h grid_size scale on fg_color
    !! (Z.to_nat row * Z.to_nat grid_size + Z.to_nat col)%nat =
  Some (tile_cell x y tile_w tile_h grid_size scale row col
                  (if on row col then fg_color else dim fg_color)).
Proof.
  intros Hrow Hcol. unfold cells.
  rewrite (lookup_flat_map_uniform _ _ (Z.to_nat grid_size) _ _ row).
  - rewrite list_lookup_fmap, range_lookup by lia. reflexivity.
  - intros r _. now rewrite length_map, range_length.
  - now apply range_lookup.
  - lia.
Qed.

Lemma cells_elem (x y tile_w tile_h grid_size scale : Z) (on : Z -> Z -> bool)
    (fg_color : rgb) (c : call) :
  In c (cells x y tile_w tile_h grid_size scale on fg_color) <->
  exists row col, 0 <= row < grid_size /\ 0 <= col < grid_size /\
    c = tile_cell x y tile_w tile_h grid_size scale row col
                  (if on row col then fg_color else dim fg_color).
Proof.
  unfold cells. rewrite in_flat_map. split.
  - intros (row & Hrow & Hc). apply in_map_iff in Hc as (col & <- & Hcol).
    apply range_elem in Hrow, Hcol. now exists row, col.
  - intros (row & col & Hrow & Hcol & ->). exists row. split; [now apply range_elem|].
    apply in_map_iff. exists col. split; [reflexivity|now apply range_elem].
Qed.

Lemma cell_index_split (grid_size row col : Z) :
  0 <= row -> 0 <= col -> 0 <= grid_size ->
  cell_index grid_size row col =
  S (Z.to_nat row * Z.to_nat grid_size + Z.to_nat col).
Proof.
  intros Hrow Hcol Hgs. unfold cell_index.
  rewrite <- Z2Nat.inj_mul, <- Z2Nat.inj_add, <- Z2Nat.inj_succ by nia.
  f_equal. lia.
Qed.

End TileFacts.

(** ** [draw_tile]: geometry *)

Section TileGeometry.
Import Py Derive Grid Pil Tile.

(** A pixel lies in at most one cell. *)
Lemma cell_rect_disjoint (gx gy cell_w cell_h r c r' c' px py : Z) (f f' : rgb) :
  covers (cell_rect gx gy cell_w cell_h r c f) px py ->
  covers (cell_rect gx gy cell_w cell_h r' c' f') px py ->
  r = r' /\ c = c'.
Proof.
  unfold cell_rect, covers. cbv zeta. intros [Hx Hy] [Hx' Hy']. split.
  - destruct (Z.lt_trichotomy r r') as [H|[H|H]]; [nia|exact H|nia].
  - destruct (Z.lt_trichotomy c c') as [H|[H|H]]; [nia|exact H|nia].
Qed.

(** With room for the padding, the cells stay [padding] pixels away from
    the edges of the tile. *)
Lemma origin_inside (x tile_w grid_size scale col p : Z) :
  0 < grid_size -> 2 * (4 * scale) <= tile_w -> 0 <= col < grid_size ->
  origin_of x tile_w grid_size scale + col * cell_w_of tile_w grid_size scale <= p
    <= origin_of x tile_w grid_size scale + col * cell_w_of tile_w grid_size scale
       + cell_w_of tile_w grid_size scale - 1 ->
  x + 4 * scale <= p <= x + tile_w - 1 - 4 * scale.
Proof.
  intros Hgs Hpad Hcol. unfold origin_of, cell_w_of, padding_of.
  set (cw := (tile_w - 2 * (4 * scale)) / grid_size).
  assert (Hcw : 0 <= cw) by (apply Z.div_pos; lia).
  assert (Hw : cw * grid_size <= tile_w - 2 * (4 * scale)).
  { rewrite Z.mul_comm. apply Z.mul_div_le. lia. }
  pose proof (Z.div_mod (tile_w - cw * grid_size) 2 ltac:(lia)) as Hd.
  pose proof (Z.mod_pos_bound (tile_w - cw * grid_size) 2 ltac:(lia)) as Hm.
  intros Hp. nia.
Qed.

Lemma tile_cell_inside (x y tile_w tile_h grid_size scale row col px py : Z)
    (fill : rgb) :
  0 < grid_size -> 2 * (4 * scale) <= tile_w -> 2 * (4 * scale) <= tile_h ->
  0 <= row < grid_size -> 0 <= col < grid_size ->
  covers (tile_cell x y tile_w tile_h grid_size scale row col fill) px py ->
  x + 4 * scale <= px <= x + tile_w - 1 - 4 * scale /\
  y + 4 * scale <= py <= y + tile_h - 1 - 4 * scale.
Proof.
  intros Hgs Hw Hh Hrow Hcol. unfold tile_cell, cell_rect, covers. cbv zeta.
  intros [Hx Hy]. split.
  - apply (origin_inside x tile_w grid_size scale col px); assumption.
  - apply (origin_inside y tile_h grid_size scale row py); assumption.
Qed.

(** The calls after the background are the cells, then the dot. *)
Lemma tile_calls_after_background (x y tile_w tile_h grid_size scale : Z)
    (on : Z -> Z -> bool) (color : rgb) (show_status : bool) (i : nat) (c : call) :
  0 < grid_size -> (1 <= i)%nat ->
  (background x y tile_w tile_h ::
     cells x y tile_w tile_h grid_size scale on color ++
     (if show_status then [status_dot x y tile_w scale] else [])) !! i = Some c ->
  (exists row col, 0 <= row < grid_size /\ 0 <= col < grid_size /\
     i = cell_index grid_size row col /\
     c = tile_cell x y tile_w tile_h grid_size scale row col
                   (if on row col then color else dim color)) \/
  (show_status = true /\ c = status_dot x y tile_w scale /\
   i = S (Z.to_nat grid_size * Z.to_nat grid_size)).
Proof.
  intros Hgs Hi Hc0. destruct i as [|k]; [lia|].
  assert (Hc : (cells x y tile_w tile_h grid_size scale on color ++
                (if show_status then [status_dot x y tile_w scale] else [])) !! k
               = Some c) by exact Hc0.
  clear Hc0. set (n := Z.to_nat grid_size) in *.
  destruct (Nat.lt_ge_cases k (n * n)) as [Hk|Hk].
  - left. rewrite lookup_app_l in Hc by (rewrite cells_length; exact Hk).
    assert (Hn : Z.of_nat n = grid_size) by (unfold n; lia).
    assert (Hq : (k / n < n)%nat) by (apply Nat.Div0.div_lt_upper_bound; lia).
    assert (Hr : (k mod n < n)%nat) by (apply Nat.mod_upper_bound; lia).
    assert (Hk' : k = (k / n * n + k mod n)%nat).
    { rewrite (Nat.div_mod_eq k n) at 1. lia. }
    remember (k / n)%nat as q eqn:Eq. remember (k mod n)%nat as r eqn:Er.
    exists (Z.of_nat q), (Z.of_nat r).
    split; [lia|]. split; [lia|]. split.
    + rewrite cell_index_split by lia. rewrite !Nat2Z.id. fold n. now f_equal.
    + rewrite Hk' in Hc. rewrite <- (Nat2Z.id q), <- (Nat2Z.id r) in Hc. unfold n in Hc.
      rewrite cells_lookup in Hc by lia.
      now injection Hc as <-.
  - right. rewrite lookup_app_r in Hc by (rewrite cells_length; exact Hk).
    rewrite cells_length in Hc. fold n in Hc.
    destruct show_status; [|now rewrite lookup_nil in Hc].
    destruct (k - n * n)%nat as [|m] eqn:Hm; [|now rewrite lookup_cons, lookup_nil in Hc].
    cbn in Hc. injection Hc as <-. repeat split. f_equal. lia.
Qed.

End TileGeometry.

(** ** Properties of [draw_tile] *)

Section TileProperties.
Import Py Derive Grid Pil Tile.

(** In this section and the following ones a name is a [str] that UTF-8
    can encode, which is what the type [string] holds; for a name with a
    lone surrogate the first statement of either derivation raises
    [UnicodeEncodeError]. *)

#[local] Ltac tile_spec draw x y tile_w tile_h name grid_size show_status scale pat :=
  destruct (draw_tile_spec draw x y tile_w tile_h name grid_size show_status scale)
    as pat; [lia|lia|lia|lia|lia|].

(** X1.  [draw_tile] with [grid_size = 0] raises for every name and every
    geometry.  The background is painted before the cell width is
    computed: a tile less than one pixel wide or high raises [ValueError]
    there, and every other tile raises [ZeroDivisionError] at the division
    by [grid_size]. *)
Theorem draw_tile_zero_grid_size (draw : canvas) (x y tile_w tile_h : Z)
    (name : string) (show_status : bool) (scale : Z) :
  draw_tile draw x y tile_w tile_h name 0 show_status scale =
  if (1 <=? tile_w) && (1 <=? tile_h)
  then Fail ZeroDivisionError
  else Fail (Raised ValueError).
Proof.
  destruct (identicon_data_spec name 0) as (color & g & _ & Hid & _).
  unfold draw_tile. rewrite Hid. cbn [lift mbind outcome_bind].
  destruct (Z.leb_spec 1 tile_w) as [Hw|Hw]; cbn [andb].
  - destruct (Z.leb_spec 1 tile_h) as [Hh|Hh].
    + rewrite rectangle_ok by lia. reflexivity.
    + rewrite rectangle_refused by lia. reflexivity.
  - rewrite rectangle_refused by lia. reflexivity.
Qed.

(** X2.  With a negative [grid_size], a tile of at least one pixel each
    way and, for the status dot, a scale that is not negative, nothing is
    raised and no cell is painted: the call adds the background and, when
    asked for, the status dot. *)
Theorem draw_tile_negative_grid_size (draw : canvas) (x y tile_w tile_h : Z)
    (name : string) (grid_size : Z) (show_status : bool) (scale : Z) :
  grid_size < 0 -> 1 <= tile_w -> 1 <= tile_h ->
  (show_status = true -> 0 <= scale) ->
  draw_tile draw x y tile_w tile_h name grid_size show_status scale =
  Done (draw ++ background x y tile_w tile_h ::
          (if show_status then [status_dot x y tile_w scale] else [])).
Proof.
  intros Hgs Hw Hh Hdot.
  destruct (draw_tile_spec draw x y tile_w tile_h name grid_size show_status scale)
    as (color & g & _ & _ & ->); [lia|lia|lia|lia|exact Hdot|].
  unfold cells. now rewrite range_nonpos by lia.
Qed.

Lemma draw_tile_negative_grid_size_witness :
  (-3 < 0 /\ 1 <= 48 /\ 1 <= 48 /\ (true = true -> 0 <= 1)) /\
  draw_tile [] 4 8 48 48 "main" (-3) true 1 =
  Done ([] ++ background 4 8 48 48 :: (if true then [status_dot 4 8 48 1] else [])).
Proof.
  split; [repeat split; discriminate|].
  apply (draw_tile_negative_grid_size [] 4 8 48 48 "main" (-3) true 1);
    [reflexivity|discriminate|discriminate|discriminate].
Defined.

(** X3.  For a positive [grid_size], a scale that is not negative and a
    tile with at least one pixel per cell inside the padding of
    [4 * scale] on each side, the call raises nothing, keeps every earlier
    call of the [draw] object and adds [1 + grid_size * grid_size] calls,
    one more with the status dot; the first of them is the background
    rectangle of the whole tile. *)
Theorem draw_tile_appends (draw : canvas) (x y tile_w tile_h : Z) (name : string)
    (grid_size : Z) (show_status : bool) (scale : Z) :
  0 < grid_size -> 0 <= scale ->
  grid_size <= tile_w - 8 * scale -> grid_size <= tile_h - 8 * scale ->
  exists new,
    draw_tile draw x y tile_w tile_h name grid_size show_status scale =
      Done (draw ++ new) /\
    Z.of_nat (length new) =
      1 + grid_size * grid_size + (if show_status then 1 else 0) /\
    new !! 0%nat = Some (Rectangle x y (x + tile_w - 1) (y + tile_h - 1) (30, 30, 36)).
Proof.
  intros Hgs Hs Hw Hh.
  tile_spec draw x y tile_w tile_h name grid_size show_status scale
    ipattern:((color & g & _ & _ & ->)).
  eexists. split; [reflexivity|]. split; [|reflexivity].
  cbn [length]. rewrite length_app, cells_length.
  destruct show_status; cbn [length]; nia.
Qed.

Lemma draw_tile_appends_witness :
  (0 < 5 /\ 0 <= 1 /\ 5 <= 48 - 8 * 1 /\ 5 <= 48 - 8 * 1) /\
  exists new,
    draw_tile [] 4 8 48 48 "main" 5 true 1 = Done ([] ++ new) /\
    Z.of_nat (length new) = 1 + 5 * 5 + (if true then 1 else 0) /\
    new !! 0%nat = Some (Rectangle 4 8 (4 + 48 - 1) (8 + 48 - 1) (30, 30, 36)).
Proof.
  split; [repeat split; discriminate|].
  apply (draw_tile_appends [] 4 8 48 48 "main" 5 true 1);
    [reflexivity|discriminate|discriminate|discriminate].
Defined.

(** X4.  Under the conditions of X3 the cell [(row, col)] of the grid is
    painted by the call number [1 + row * grid_size + col] of the tile: a
    rectangle of the cell's place filled with the foreground colour when
    [grid[row][col]] is set, and with a fifth of each channel when it is
    not. *)
Theorem draw_tile_cell_painted (draw : canvas) (x y tile_w tile_h : Z)
    (name : string) (grid_size : Z) (show_status : bool) (scale row col : Z) :
  0 < grid_size -> 0 <= scale ->
  grid_size <= tile_w - 8 * scale -> grid_size <= tile_h - 8 * scale ->
  0 <= row < grid_size -> 0 <= col < grid_size ->
  exists r g b gr new on,
    Hybrid.identicon_data name grid_size = Ok ((r, g, b), gr) /\
    cell gr row col = Ok on /\
    draw_tile draw x y tile_w tile_h name grid_size show_status scale =
      Done (draw ++ new) /\
    new !! Z.to_nat (1 + row * grid_size + col) =
      Some (tile_cell x y tile_w tile_h grid_size scale row col
                      (if on then (r, g, b) else (r / 5, g / 5, b / 5))).
Proof.
  intros Hgs Hs Hw Hh Hrow Hcol.
  tile_spec draw x y tile_w tile_h name grid_size show_status scale
    ipattern:(([[r g] b] & gr & Hid & Hg & ->)).
  rewrite Z.max_r in Hg by lia.
  eexists r, g, b, gr, _, _. split; [exact Hid|].
  split; [exact (grid_is_cell _ _ _ row col Hg Hrow Hcol)|].
  split; [reflexivity|].
  fold (cell_index grid_size row col). rewrite cell_index_split by lia.
  change ((background x y tile_w tile_h :: ?l) !! S ?k) with (l !! k).
  rewrite lookup_app_l by (rewrite cells_length; nia).
  now rewrite cells_lookup by lia.
Qed.

Lemma draw_tile_cell_painted_witness :
  (0 < 5 /\ 0 <= 1 /\ 5 <= 48 - 8 * 1 /\ 5 <= 48 - 8 * 1 /\
   0 <= 1 < 5 /\ 0 <= 2 < 5) /\
  exists r g b gr new on,
    Hybrid.identicon_data "main" 5 = Ok ((r, g, b), gr) /\
    cell gr 1 2 = Ok on /\
    draw_tile [] 4 8 48 48 "main" 5 true 1 = Done ([] ++ new) /\
    new !! Z.to_nat (1 + 1 * 5 + 2) =
      Some (tile_cell 4 8 48 48 5 1 1 2
                      (if on then (r, g, b) else (r / 5, g / 5, b / 5))).
Proof.
  split; [repeat split; discriminate|].
  apply (draw_tile_cell_painted [] 4 8 48 48 "main" 5 true 1 1 2);
    repeat split; discriminate.
Defined.

(** X5.  Under the conditions of X3 the picture is mirror-symmetric in its
    colours: in every row the calls for the columns [col] and
    [grid_size - 1 - col] use the same fill. *)
Theorem draw_tile_mirror_fill (draw : canvas) (x y tile_w tile_h : Z)
    (name : string) (grid_size : Z) (show_status : bool) (scale row col : Z) :
  0 < grid_size -> 0 <= scale ->
  grid_size <= tile_w - 8 * scale -> grid_size <= tile_h - 8 * scale ->
  0 <= row < grid_size -> 0 <= col < grid_size ->
  exists new fill,
    draw_tile draw x y tile_w tile_h name grid_size show_status scale =
      Done (draw ++ new) /\
    new !! Z.to_nat (1 + row * grid_size + col) =
      Some (tile_cell x y tile_w tile_h grid_size scale row col fill) /\
    new !! Z.to_nat (1 + row * grid_size + (grid_size - 1 - col)) =
      Some (tile_cell x y tile_w tile_h grid_size scale row (grid_size - 1 - col) fill).
Proof.
  intros Hgs Hs Hw Hh Hrow Hcol.
  tile_spec draw x y tile_w tile_h name grid_size show_status scale
    ipattern:((color & gr & _ & _ & ->)).
  eexists _, _. split; [reflexivity|].
  fold (cell_index grid_size row col).
  fold (cell_index grid_size row (grid_size - 1 - col)).
  rewrite !cell_index_split by lia.
  change ((background x y tile_w tile_h :: ?l) !! S ?k) with (l !! k).
  change ((background x y tile_w tile_h :: ?l) !! S ?k) with (l !! k).
  rewrite !lookup_app_l by (rewrite cells_length; nia).
  rewrite !cells_lookup by lia. now rewrite final_mirror.
Qed.

Lemma draw_tile_mirror_fill_witness :
  (0 < 5 /\ 0 <= 1 /\ 5 <= 48 - 8 * 1 /\ 5 <= 48 - 8 * 1 /\
   0 <= 1 < 5 /\ 0 <= 0 < 5) /\
  exists new fill,
    draw_tile [] 4 8 48 48 "main" 5 true 1 = Done ([] ++ new) /\
    new !! Z.to_nat (1 + 1 * 5 + 0) = Some (tile_cell 4 8 48 48 5 1 1 0 fill) /\
    new !! Z.to_nat (1 + 1 * 5 + (5 - 1 - 0)) =
      Some (tile_cell 4 8 48 48 5 1 1 (5 - 1 - 0) fill).
Proof.
  split; [repeat split; discriminate|].
  apply (draw_tile_mirror_fill [] 4 8 48 48 "main" 5 true 1 1 0);
    repeat split; discriminate.
Defined.

(** X6.  Under the conditions of X3 every rectangle painted after the
    background lies inside the tile, at least [4 * scale] pixels away from
    each of its edges. *)
Theorem draw_tile_cells_inside (draw : canvas) (x y tile_w tile_h : Z)
    (name : string) (grid_size : Z) (show_status : bool) (scale : Z) :
  0 < grid_size -> 0 <= scale ->
  grid_size <= tile_w - 8 * scale -> grid_size <= tile_h - 8 * scale ->
  exists new,
    draw_tile draw x y tile_w tile_h name grid_size show_status scale =
      Done (draw ++ new) /\
    forall (i : nat) x0 y0 x1 y1 fill px py,
      (1 <= i)%nat -> new !! i = Some (Rectangle x0 y0 x1 y1 fill) ->
      x0 <= px <= x1 -> y0 <= py <= y1 ->
      x + 4 * scale <= px <= x + tile_w - 1 - 4 * scale /\
      y + 4 * scale <= py <= y + tile_h - 1 - 4 * scale.
Proof.
  intros Hgs Hs Hw Hh.
  tile_spec draw x y tile_w tile_h name grid_size show_status scale
    ipattern:((color & gr & _ & _ & ->)).
  eexists. split; [reflexivity|].
  intros i x0 y0 x1 y1 fill px py Hi Hc Hx Hy.
  apply tile_calls_after_background in Hc as [(row & col & Hrow & Hcol & _ & Hc)|(_ & Hc & _)];
    [|discriminate|lia|exact Hi].
  apply (tile_cell_inside x y tile_w tile_h grid_size scale row col px py
           (if final (bits_of name) ((grid_size + 1) / 2) grid_size row col
            then color else dim color)); try assumption; try lia.
  rewrite <- Hc. split; assumption.
Qed.

Lemma draw_tile_cells_inside_witness :
  (0 < 5 /\ 0 <= 1 /\ 5 <= 48 - 8 * 1 /\ 5 <= 48 - 8 * 1) /\
  exists new,
    draw_tile [] 4 8 48 48 "main" 5 true 1 = Done ([] ++ new) /\
    forall (i : nat) x0 y0 x1 y1 fill px py,
      (1 <= i)%nat -> new !! i = Some (Rectangle x0 y0 x1 y1 fill) ->
      x0 <= px <= x1 -> y0 <= py <= y1 ->
      4 + 4 * 1 <= px <= 4 + 48 - 1 - 4 * 1 /\
      8 + 4 * 1 <= py <= 8 + 48 - 1 - 4 * 1.
Proof.
  split; [repeat split; discriminate|].
  apply (draw_tile_cells_inside [] 4 8 48 48 "main" 5 true 1);
    [reflexivity|discriminate|discriminate|discriminate].
Defined.

(** X7.  Under the conditions of X3 no two cells overlap: a pixel covered
    by one of the rectangles painted after the background is covered by no
    other of them. *)
Theorem draw_tile_cells_disjoint (draw : canvas) (x y tile_w tile_h : Z)
    (name : string) (grid_size : Z) (show_status : bool) (scale : Z) :
  0 < grid_size -> 0 <= scale ->
  grid_size <= tile_w - 8 * scale -> grid_size <= tile_h - 8 * scale ->
  exists new,
    draw_tile draw x y tile_w tile_h name grid_size show_status scale =
      Done (draw ++ new) /\
    forall (i j : nat) c1 c2 px py,
      (1 <= i)%nat -> (1 <= j)%nat ->
      new !! i = Some c1 -> new !! j = Some c2 ->
      covers c1 px py -> covers c2 px py -> i = j.
Proof.
  intros Hgs Hs Hw Hh.
  tile_spec draw x y tile_w tile_h name grid_size show_status scale
    ipattern:((color & gr & _ & _ & ->)).
  eexists. split; [reflexivity|].
  intros i j c1 c2 px py Hi Hj Hc1 Hc2 Hp1 Hp2.
  apply tile_calls_after_background in Hc1
    as [(r1 & k1 & Hr1 & Hk1 & -> & ->)|(_ & -> & _)]; [| |lia|exact Hi].
  - apply tile_calls_after_background in Hc2
      as [(r2 & k2 & Hr2 & Hk2 & -> & ->)|(_ & -> & _)]; [| |lia|exact Hj].
    + unfold tile_cell in Hp1, Hp2.
      destruct (cell_rect_disjoint _ _ _ _ _ _ _ _ _ _ _ _ Hp1 Hp2) as [-> ->].
      reflexivity.
    + destruct Hp2.
  - destruct Hp1.
Qed.

Lemma draw_tile_cells_disjoint_witness :
  (0 < 5 /\ 0 <= 1 /\ 5 <= 48 - 8 * 1 /\ 5 <= 48 - 8 * 1) /\
  exists new,
    draw_tile [] 4 8 48 48 "main" 5 true 1 = Done ([] ++ new) /\
    forall (i j : nat) c1 c2 px py,
      (1 <= i)%nat -> (1 <= j)%nat ->
      new !! i = Some c1 -> new !! j = Some c2 ->
      covers c1 px py -> covers c2 px py -> i = j.
Proof.
  split; [repeat split; discriminate|].
  apply (draw_tile_cells_disjoint [] 4 8 48 48 "main" 5 true 1);
    [reflexivity|discriminate|discriminate|discriminate].
Defined.

(** X8.  Under the conditions of X3 the grid is centred in the tile: the
    margin left of the first column and the margin right of the last
    column differ by at most one pixel, the left one being the smaller,
    and so do the margins above the first row and below the last row. *)
Theorem draw_tile_centred (draw : canvas) (x y tile_w tile_h : Z)
    (name : string) (grid_size : Z) (show_status : bool) (scale : Z) :
  0 < grid_size -> 0 <= scale ->
  grid_size <= tile_w - 8 * scale -> grid_size <= tile_h - 8 * scale ->
  exists new xa ya xb yb fa xc yc xd yd fd,
    draw_tile draw x y tile_w tile_h name grid_size show_status scale =
      Done (draw ++ new) /\
    new !! 1%nat = Some (Rectangle xa ya xb yb fa) /\
    new !! Z.to_nat (grid_size * grid_size) = Some (Rectangle xc yc xd yd fd) /\
    xa - x <= (x + tile_w - 1) - xd <= xa - x + 1 /\
    ya - y <= (y + tile_h - 1) - yd <= ya - y + 1.
Proof.
  intros Hgs Hs Hw Hh.
  tile_spec draw x y tile_w tile_h name grid_size show_status scale
    ipattern:((color & gr & _ & _ & ->)).
  pose proof (cells_lookup x y tile_w tile_h grid_size scale
    (final (bits_of name) ((grid_size + 1) / 2) grid_size) color 0 0
    ltac:(lia) ltac:(lia)) as H0.
  pose proof (cells_lookup x y tile_w tile_h grid_size scale
    (final (bits_of name) ((grid_size + 1) / 2) grid_size) color
    (grid_size - 1) (grid_size - 1) ltac:(lia) ltac:(lia)) as H1.
  unfold tile_cell, cell_rect in H0, H1. cbv zeta in H0, H1.
  eexists _, _, _, _, _, _, _, _, _, _, _. split; [reflexivity|].
  split.
  { change ((background x y tile_w tile_h :: ?l) !! 1%nat) with (l !! 0%nat).
    rewrite lookup_app_l by (rewrite cells_length; nia). exact H0. }
  split.
  { replace (Z.to_nat (grid_size * grid_size))
      with (S (Z.to_nat (grid_size - 1) * Z.to_nat grid_size + Z.to_nat (grid_size - 1)))
      by nia.
    change ((background x y tile_w tile_h :: ?l) !! S ?k) with (l !! k).
    rewrite lookup_app_l by (rewrite cells_length; nia). exact H1. }
  unfold origin_of. clear Hs Hw Hh H0 H1.
  pose proof (Z.div_mod (tile_w - cell_w_of tile_w grid_size scale * grid_size) 2
                ltac:(lia)).
  pose proof (Z.mod_pos_bound (tile_w - cell_w_of tile_w grid_size scale * grid_size) 2
                ltac:(lia)).
  pose proof (Z.div_mod (tile_h - cell_w_of tile_h grid_size scale * grid_size) 2
                ltac:(lia)).
  pose proof (Z.mod_pos_bound (tile_h - cell_w_of tile_h grid_size scale * grid_size) 2
                ltac:(lia)).
  split; nia.
Qed.

Lemma draw_tile_centred_witness :
  (0 < 5 /\ 0 <= 1 /\ 5 <= 49 - 8 * 1 /\ 5 <= 48 - 8 * 1) /\
  exists new xa ya xb yb fa xc yc xd yd fd,
    draw_tile [] 4 8 49 48 "main" 5 true 1 = Done ([] ++ new) /\
    new !! 1%nat = Some (Rectangle xa ya xb yb fa) /\
    new !! Z.to_nat (5 * 5) = Some (Rectangle xc yc xd yd fd) /\
    xa - 4 <= (4 + 49 - 1) - xd <= xa - 4 + 1 /\
    ya - 8 <= (8 + 48 - 1) - yd <= ya - 8 + 1.
Proof.
  split; [repeat split; discriminate|].
  apply (draw_tile_centred [] 4 8 49 48 "main" 5 true 1);
    [reflexivity|discriminate|discriminate|discriminate].
Defined.

(** X9.  Under the conditions of X3 the status dot is the last call when
    [show_status] is set, an ellipse in the top right corner whose box ends
    [2 * scale] pixels short of the right edge and starts [2 * scale]
    pixels below the top edge, and it is the only ellipse; without
    [show_status] no ellipse is drawn. *)
Theorem draw_tile_status_dot (draw : canvas) (x y tile_w tile_h : Z)
    (name : string) (grid_size : Z) (show_status : bool) (scale : Z) :
  0 < grid_size -> 0 <= scale ->
  grid_size <= tile_w - 8 * scale -> grid_size <= tile_h - 8 * scale ->
  exists painted,
    Forall (fun c => is_ellipse c = false) painted /\
    draw_tile draw x y tile_w tile_h name grid_size show_status scale =
      Done (draw ++ painted ++
            (if show_status
             then [Ellipse (x + tile_w - 8 * scale) (y + 2 * scale)
                           (x + tile_w - 2 * scale) (y + 8 * scale) (50, 200, 50)]
             else [])).
Proof.
  intros Hgs Hs Hw Hh.
  tile_spec draw x y tile_w tile_h name grid_size show_status scale
    ipattern:((color & gr & _ & _ & ->)).
  exists (background x y tile_w tile_h ::
          cells x y tile_w tile_h grid_size scale
                (final (bits_of name) ((grid_size + 1) / 2) grid_size) color).
  split.
  - apply Forall_cons. split; [reflexivity|].
    apply Forall_forall. intros c Hc. apply list_elem_of_In, cells_elem in Hc
      as (row & col & _ & _ & ->). reflexivity.
  - do 2 f_equal. cbn [app]. f_equal. f_equal.
    destruct show_status; [|reflexivity].
    unfold status_dot. cbv zeta. do 2 f_equal; lia.
Qed.

Lemma draw_tile_status_dot_witness :
  (0 < 5 /\ 0 <= 1 /\ 5 <= 48 - 8 * 1 /\ 5 <= 48 - 8 * 1) /\
  exists painted,
    Forall (fun c => is_ellipse c = false) painted /\
    draw_tile [] 4 8 48 48 "main" 5 true 1 =
      Done ([] ++ painted ++
            (if true
             then [Ellipse (4 + 48 - 8 * 1) (8 + 2 * 1)
                           (4 + 48 - 2 * 1) (8 + 8 * 1) (50, 200, 50)]
             else [])).
Proof.
  split; [repeat split; discriminate|].
  apply (draw_tile_status_dot [] 4 8 48 48 "main" 5 true 1);
    [reflexivity|discriminate|discriminate|discriminate].
Defined.

(** X19.  For a positive [grid_size], [draw_tile] raises [ValueError]
    when one of its boxes is refused: the background of a tile less than
    one pixel wide or high, the first cell when the padding of
    [4 * scale] on each side leaves less than one pixel per cell, or the
    status dot of a negative scale. *)
Theorem draw_tile_refused (draw : canvas) (x y tile_w tile_h : Z)
    (name : string) (grid_size : Z) (show_status : bool) (scale : Z) :
  0 < grid_size ->
  tile_w < 1 \/ tile_h < 1 \/
  tile_w - 8 * scale < grid_size \/ tile_h - 8 * scale < grid_size \/
  (show_status = true /\ scale < 0) ->
  draw_tile draw x y tile_w tile_h name grid_size show_status scale =
  Fail (Raised ValueError).
Proof.
  intros Hgs Hbad.
  destruct (identicon_data_spec name grid_size) as (color & g & _ & Hid & Hg).
  unfold draw_tile. rewrite Hid. cbn [lift mbind outcome_bind]. cbv zeta.
  destruct (Z.lt_ge_cases tile_w 1) as [Hw|Hw];
    [rewrite rectangle_refused by lia; reflexivity|].
  destruct (Z.lt_ge_cases tile_h 1) as [Hh|Hh];
    [rewrite rectangle_refused by lia; reflexivity|].
  rewrite rectangle_ok by lia. cbn [lift mbind outcome_bind].
  unfold floordiv. destruct (Z.eqb_spec grid_size 0) as [|_]; [lia|].
  cbn [mbind outcome_bind].
  destruct (Z.lt_ge_cases (tile_w - 8 * scale) grid_size) as [Hcw|Hcw].
  { rewrite (draw_cells_refused grid_size _ g _ _ _ _ _ _ _ Hg Hgs);
      [reflexivity|]. left. apply Z.div_lt_upper_bound; lia. }
  destruct (Z.lt_ge_cases (tile_h - 8 * scale) grid_size) as [Hch|Hch].
  { rewrite (draw_cells_refused grid_size _ g _ _ _ _ _ _ _ Hg Hgs);
      [reflexivity|]. right. apply Z.div_lt_upper_bound; lia. }
  rewrite (draw_cells_spec grid_size _ g _ _ _ _ _ _ _ Hg)
    by (intros _; split; apply Z.div_le_lower_bound; lia).
  cbn [lift mbind outcome_bind].
  destruct Hbad as [Hb|[Hb|[Hb|[Hb|[-> Hb]]]]]; try lia.
  unfold ellipse, refused.
  destruct (Z.ltb_spec (x + tile_w - 6 * scale - 2 * scale + 6 * scale)
                       (x + tile_w - 6 * scale - 2 * scale)); [reflexivity|lia].
Qed.

Lemma draw_tile_refused_witness :
  (0 < 5 /\
   (10 < 1 \/ 10 < 1 \/ 10 - 8 * 1 < 5 \/ 10 - 8 * 1 < 5 \/
    (false = true /\ 1 < 0))) /\
  draw_tile [] 4 8 10 10 "main" 5 false 1 = Fail (Raised ValueError).
Proof.
  split; [split; [reflexivity|right; right; left; reflexivity]|].
  apply (draw_tile_refused [] 4 8 10 10 "main" 5 false 1);
    [reflexivity|right; right; left; reflexivity].
Defined.

End TileProperties.

(** ** Facts about text *)

Section StrFacts.

Lemma string_app_assoc (a b c : string) : ((a ++ b) ++ c = a ++ (b ++ c))%string.
Proof. induction a as [|ch a IH]; cbn; [reflexivity|now rewrite IH]. Qed.

Lemma string_app_nil_r (a : string) : (a ++ "" = a)%string.
Proof. induction a as [|ch a IH]; cbn; [reflexivity|now rewrite IH]. Qed.

Lemma len_nonneg (s : string) : 0 <= Str.len s.
Proof.
  induction s as [|c s IH]; cbn [Str.len]; [lia|].
  destruct (Str.is_continuation c); lia.
Qed.

Lemma len_app (a b : string) : Str.len (a ++ b) = Str.len a + Str.len b.
Proof.
  induction a as [|c a IH]; cbn [Str.len String.append]; [lia|]. rewrite IH. lia.
Qed.

(** A slice [s[:n]] has [n] characters, or all of them when [s] is
    shorter. *)
Lemma len_prefix (n : nat) (s : string) :
  Str.len (Str.prefix n s) = Z.min (Z.of_nat n) (Str.len s).
Proof.
  revert n. induction s as [|c s IH]; intros n; cbn [Str.len Str.prefix]; [lia|].
  pose proof (len_nonneg s) as Hs.
  destruct (Str.is_continuation c) eqn:Hc.
  - cbn [Str.len]. rewrite Hc, IH. lia.
  - destruct n as [|n]; cbn [Str.len]; [lia|]. rewrite Hc, IH. lia.
Qed.

Lemma prefix_app (n : nat) (s : string) :
  exists rest, s = (Str.prefix n s ++ rest)%string.
Proof.
  revert n. induction s as [|c s IH]; intros n; cbn [Str.prefix].
  - now exists ""%string.
  - destruct (Str.is_continuation c).
    + destruct (IH n) as [rest Hrest]. exists rest. cbn. now rewrite <- Hrest.
    + destruct n as [|n]; [now exists (String c s)|].
      destruct (IH n) as [rest Hrest]. exists rest. cbn. now rewrite <- Hrest.
Qed.

End StrFacts.

(** ** The renderers of [identicon_gen.py]: the calls and the text *)

Section RenderFacts.
Import Py Derive Grid Pil Render.

Lemma comprehension_grid_is (n : Z) (f : Z -> Z -> bool) :
  0 <= n ->
  grid_is n f (List.map (fun r => List.map (f r) (range n)) (range n)).
Proof.
  intros Hn. split; [rewrite length_map, range_length; lia|].
  intros r Hr. exists (List.map (f r) (range n)).
  split; [now rewrite list_lookup_fmap, range_lookup|].
  split; [rewrite length_map, range_length; lia|].
  intros c Hc. now rewrite list_lookup_fmap, range_lookup.
Qed.

(** A grid is the list of its rows. *)
Lemma grid_is_eq (n : Z) (f : Z -> Z -> bool) (g : grid) :
  0 <= n -> grid_is n f g ->
  g = List.map (fun r => List.map (f r) (range n)) (range n).
Proof.
  intros Hn Hg. apply (grid_is_unique n f); [exact Hg|now apply comprehension_grid_is].
Qed.

(** [generate_identicon_data] reads two of the four pattern bytes, which
    is enough for a 5 by 5 grid. *)
Lemma generate_as_identicon_data (name : string) :
  Identicon.generate_identicon_data name = Hybrid.identicon_data name 5.
Proof.
  destruct (bits_of_spec name) as (d4 & d5 & d6 & d7 & H4 & H5 & _ & _ & Hbits & _).
  destruct (fill_spec 5 3 (Z.lor (int_of_byte d4) (Z.shiftl (int_of_byte d5) 8)))
    as (g1 & Hf1 & Hg1); [lia|lia|].
  destruct (fill_spec 5 3 (bits_of name)) as (g2 & Hf2 & Hg2); [lia|lia|].
  assert (Hsame : g1 = g2).
  { apply (grid_is_unique 5 _ g1 g2 Hg1). eapply grid_is_ext; [|exact Hg2].
    intros r c Hr Hc. unfold final, on. rewrite !land_shiftl_testbit by lia.
    rewrite Hbits. apply testbit_low16; try apply int_of_byte_range. lia. }
  unfold Identicon.generate_identicon_data, Hybrid.identicon_data. cbv zeta.
  destruct (fg_color (digest name)) as [color|e]; [|reflexivity].
  cbn [mbind result_bind]. rewrite H4, H5. cbn [mbind result_bind].
  fold (bits_of name). fold (blank 5). change ((5 + 1) / 2) with 3.
  rewrite Hf2.
  change (Identicon.fill (Z.lor (int_of_byte d4) (Z.shiftl (int_of_byte d5) 8)) (blank 5))
    with (Hybrid.fill 5 3 (Z.lor (int_of_byte d4) (Z.shiftl (int_of_byte d5) 8)) (blank 5)).
  rewrite Hf1. now rewrite Hsame.
Qed.

(** What [generate_identicon_data] returns, through [identicon_data]. *)
Lemma generate_identicon_data_spec (name : string) :
  exists color g,
    Identicon.generate_identicon_data name = Ok (color, g) /\
    Hybrid.identicon_data name 5 = Ok (color, g) /\
    grid_is 5 (final (bits_of name) 3 5) g.
Proof.
  destruct (identicon_data_spec name 5) as (color & g & _ & Hid & Hg).
  exists color, g. split; [|split; [exact Hid|exact Hg]].
  now rewrite generate_as_identicon_data.
Qed.

(** The loops of [render_identicon_pil] paint the cells that are set, when
    a cell is at least one pixel wide. *)
Lemma pil_draw_cells_spec (on : Z -> Z -> bool) (g : grid) (gx gy cell_size : Z)
    (fg_color : rgb) (draw : canvas) :
  grid_is 5 on g -> 1 <= cell_size ->
  Render.draw_cells g gx gy cell_size fg_color draw =
  Ok (draw ++ flat_map (fun row =>
        flat_map (fun col =>
          if on row col
          then [Tile.cell_rect gx gy cell_size cell_size row col fg_color]
          else []) (range 5)) (range 5)).
Proof.
  intros Hg Hcell. unfold Render.draw_cells. apply for_each_emit.
  intros row log Hrow. apply range_elem in Hrow. apply for_each_emit.
  intros col log' Hcol. apply range_elem in Hcol.
  rewrite (grid_is_cell 5 on g row col Hg) by lia. cbn [mbind result_bind].
  destruct (on row col); [|now rewrite app_nil_r].
  cbv zeta. unfold Tile.cell_rect. apply rectangle_ok; lia.
Qed.

(** With cells less than one pixel wide the loops raise [ValueError] at
    the first cell that is set. *)
Lemma pil_draw_cells_refused (on : Z -> Z -> bool) (g : grid)
    (gx gy cell_size : Z) (fg_color : rgb) (draw : canvas) (row col : Z) :
  grid_is 5 on g -> cell_size < 1 ->
  0 <= row < 5 -> 0 <= col < 5 -> on row col = true ->
  Render.draw_cells g gx gy cell_size fg_color draw = Err ValueError.
Proof.
  intros Hg Hcell Hrow Hcol Hon. unfold Render.draw_cells.
  assert (Hbody : forall r c log, 0 <= r < 5 -> 0 <= c < 5 ->
            (on ← cell g r c;
             if on : bool then
               let cx := gx + c * cell_size in
               let cy := gy + r * cell_size in
               rectangle log cx cy (cx + cell_size - 1) (cy + cell_size - 1) fg_color
             else Ok log) =
            if on r c then Err ValueError else Ok log).
  { intros r c log Hr Hc. rewrite (grid_is_cell 5 on g r c Hg) by lia.
    cbn [mbind result_bind]. destruct (on r c); [|reflexivity].
    cbv zeta. apply rectangle_refused. lia. }
  apply (for_each_raises _ _ ValueError row); [now apply range_elem| |].
  - intros log. apply (for_each_raises _ _ ValueError col); [now apply range_elem| |].
    + intros log'. rewrite Hbody by lia. now rewrite Hon.
    + intros c log' Hc. apply range_elem in Hc. rewrite Hbody by lia.
      destruct (on row c); [now left|right; now eexists].
  - intros r log Hr. apply range_elem in Hr. apply for_each_raises_or_returns.
    intros c log' Hc. apply range_elem in Hc. rewrite Hbody by lia.
    destruct (on r c); [now left|right; now eexists].
Qed.

(** What a call of [render_identicon_pil] does when the cells are at least
    one pixel wide: the background, the cells that are set, then the label
    when it is asked for. *)
Lemma render_identicon_pil_spec (textbbox : string -> Z * Z * Z * Z)
    (draw : canvas) (x y size : Z) (name : string) (label : bool) :
  13 <= size ->
  exists color g,
    Identicon.generate_identicon_data name = Ok (color, g) /\
    grid_is 5 (final (bits_of name) 3 5) g /\
    render_identicon_pil textbbox draw x y size name label =
    Ok (draw ++ Tile.background x y size size ::
          Render.cells x y size (final (bits_of name) 3 5) color ++
          (if label then [label_text textbbox x y size name] else [])).
Proof.
  intros Hsize.
  destruct (generate_identicon_data_spec name) as (color & g & Hgen & _ & Hg).
  exists color, g. split; [exact Hgen|]. split; [exact Hg|].
  unfold render_identicon_pil. rewrite Hgen. cbn [mbind result_bind]. cbv zeta.
  rewrite rectangle_ok by lia. cbn [mbind result_bind].
  rewrite (pil_draw_cells_spec _ g _ _ _ _ _ Hg)
    by (apply Z.div_le_lower_bound; lia).
  cbn [mbind result_bind]. unfold label_text, text.
  destruct label.
  - destruct (textbbox (display_name name)) as [[[b0 b1] b2] b3].
    f_equal. rewrite <- !app_assoc. reflexivity.
  - f_equal. rewrite app_nil_r, <- !app_assoc. reflexivity.
Qed.

Lemma pil_cells_elem (x y size : Z) (on : Z -> Z -> bool) (fg_color : rgb) (c : call) :
  In c (Render.cells x y size on fg_color) <->
  exists row col, 0 <= row < 5 /\ 0 <= col < 5 /\ on row col = true /\
    c = pil_cell x y size row col fg_color.
Proof.
  unfold Render.cells. rewrite in_flat_map. split.
  - intros (row & Hrow & Hc). apply in_flat_map in Hc as (col & Hcol & Hc).
    apply range_elem in Hrow, Hcol. exists row, col.
    destruct (on row col); [|destruct Hc].
    destruct Hc as [<-|[]]. repeat split; lia.
  - intros (row & col & Hrow & Hcol & Hon & ->).
    exists row. split; [now apply range_elem|].
    apply in_flat_map. exists col. split; [now apply range_elem|].
    rewrite Hon. now left.
Qed.

Lemma length_flat_map_filter {A B : Type} (p : A -> bool) (h : A -> B) (xs : list A) :
  length (flat_map (fun x => if p x then [h x] else []) xs) =
  length (filter (fun b : bool => b = true) (List.map p xs)).
Proof.
  induction xs as [|x xs IH]; [reflexivity|].
  cbn [flat_map List.map]. rewrite length_app, IH.
  destruct (p x) eqn:Hp.
  - now rewrite filter_cons_True.
  - now rewrite filter_cons_False by discriminate.
Qed.

Lemma length_flat_map_filter2 {A B : Type} (p : A -> A -> bool) (h : A -> A -> B)
    (rows cols : list A) :
  length (flat_map (fun row =>
            flat_map (fun col => if p row col then [h row col] else []) cols) rows) =
  length (filter (fun b : bool => b = true)
            (concat (List.map (fun r => List.map (p r) cols) rows))).
Proof.
  induction rows as [|r rows IH]; [reflexivity|].
  cbn [flat_map List.map concat]. rewrite length_app, filter_app, length_app, IH.
  f_equal. apply length_flat_map_filter.
Qed.

Lemma pil_cells_length (x y size : Z) (on : Z -> Z -> bool) (fg_color : rgb) (g : grid) :
  grid_is 5 on g ->
  length (Render.cells x y size on fg_color) = count_set g.
Proof.
  intros Hg. rewrite (grid_is_eq 5 on g ltac:(lia) Hg).
  unfold Render.cells, count_set. apply length_flat_map_filter2.
Qed.

(** The accumulator loops of [render_text_identicon]. *)
Lemma row_line_acc (row : list bool) (acc : string) :
  fold_left (fun line (cell : bool) => line ++ (if cell then "██" else "  "))%string
            row acc =
  (acc ++ fold_left (fun line (cell : bool) => line ++ (if cell then "██" else "  "))%string
                    row "")%string.
Proof.
  revert acc. induction row as [|c row IH]; intros acc; cbn [fold_left].
  - now rewrite string_app_nil_r.
  - rewrite IH. rewrite (IH (""  ++ _)%string). cbn [String.append].
    now rewrite string_app_assoc.
Qed.

Lemma lines_fold (g : grid) (lines : list string) :
  fold_left (fun lines row => lines ++ [row_line row]) g lines =
  lines ++ List.map row_line g.
Proof.
  revert lines. induction g as [|row g IH]; intros lines; cbn [fold_left List.map].
  - now rewrite app_nil_r.
  - rewrite IH. now rewrite <- app_assoc.
Qed.

Lemma row_text_cons (c : bool) (row : list bool) :
  fold_left (fun line (cell : bool) => line ++ (if cell then "██" else "  "))%string
            (c :: row) ""%string =
  ((if c then "██" else "  ") ++
   fold_left (fun line (cell : bool) => line ++ (if cell then "██" else "  "))%string
             row "")%string.
Proof. cbn [fold_left]. now rewrite row_line_acc. Qed.

Lemma row_text_inj (r1 r2 : list bool) :
  fold_left (fun line (cell : bool) => line ++ (if cell then "██" else "  "))%string r1 ""%string =
  fold_left (fun line (cell : bool) => line ++ (if cell then "██" else "  "))%string r2 ""%string ->
  r1 = r2.
Proof.
  revert r2. induction r1 as [|c1 r1 IH]; intros [|c2 r2].
  - reflexivity.
  - rewrite row_text_cons. cbn [fold_left]. destruct c2; discriminate.
  - rewrite row_text_cons. cbn [fold_left]. destruct c1; discriminate.
  - rewrite !row_text_cons. intros H.
    destruct c1, c2; cbn [String.append] in H; try discriminate;
      f_equal; apply IH; congruence.
Qed.

Lemma row_line_len (row : list bool) :
  Str.len (row_line row) = 2 + 2 * Z.of_nat (length row).
Proof.
  unfold row_line. rewrite row_line_acc, len_app.
  change (Str.len "  ") with 2. f_equal.
  induction row as [|c row IH]; [reflexivity|].
  rewrite row_text_cons, len_app, IH. cbn [length].
  destruct c; [change (Str.len "██") with 2|change (Str.len "  ") with 2]; lia.
Qed.

Lemma display_name_len (name : string) :
  Str.len (display_name name) = Z.min (Str.len name) 16.
Proof.
  unfold display_name. destruct (Z.leb_spec (Str.len name) 16) as [Hle|Hgt]; [lia|].
  rewrite len_app, len_prefix. change (Str.len "..") with 2. lia.
Qed.

End RenderFacts.

(** ** Properties of the renderers of [identicon_gen.py] *)

Section RenderProperties.
Import Py Derive Grid Pil Render.

(** X10.  The label never has more than 16 characters: a name of at most 16
    characters is shown as it is, a longer one as its first 14 characters
    followed by two dots, 16 characters in all. *)
Theorem display_name_length (name : string) :
  Str.len (display_name name) = Z.min (Str.len name) 16 /\
  (Str.len name <= 16 -> display_name name = name) /\
  (16 < Str.len name ->
   exists head rest, name = (head ++ rest)%string /\ Str.len head = 14 /\
                     display_name name = (head ++ "..")%string).
Proof.
  unfold display_name. destruct (Z.leb_spec (Str.len name) 16) as [Hle|Hgt].
  - split; [lia|]. split; [reflexivity|]. lia.
  - assert (Hp : Str.len (Str.prefix 14 name) = 14) by (rewrite len_prefix; lia).
    split; [rewrite len_app, Hp; change (Str.len "..") with 2; lia|].
    split; [lia|]. intros _.
    destruct (prefix_app 14 name) as [rest Hrest].
    now exists (Str.prefix 14 name), rest.
Qed.

(** X11.  For a tile of at least 13 pixels, which gives cells of at least
    one pixel, [render_identicon_pil] raises nothing and, after the
    background, paints one rectangle for each cell of the grid that is
    set, and none for a cell that is not. *)
Theorem render_identicon_pil_cells (textbbox : string -> Z * Z * Z * Z)
    (draw : canvas) (x y size : Z) (name : string) (label : bool) :
  13 <= size ->
  exists r g b gr painted,
    Identicon.generate_identicon_data name = Ok ((r, g, b), gr) /\
    render_identicon_pil textbbox draw x y size name label =
      Ok (draw ++ Rectangle x y (x + size - 1) (y + size - 1) (30, 30, 36) ::
            painted ++ (if label then [label_text textbbox x y size name] else [])) /\
    length painted = count_set gr /\
    forall c, In c painted <->
      exists row col, 0 <= row < 5 /\ 0 <= col < 5 /\
        cell gr row col = Ok true /\ c = pil_cell x y size row col (r, g, b).
Proof.
  intros Hsize.
  destruct (render_identicon_pil_spec textbbox draw x y size name label Hsize)
    as ([[r g] b] & gr & Hgen & Hg & Hrender).
  exists r, g, b, gr, (Render.cells x y size (final (bits_of name) 3 5) (r, g, b)).
  split; [exact Hgen|]. split; [exact Hrender|].
  split; [now apply pil_cells_length|].
  intros c. rewrite pil_cells_elem. split.
  - intros (row & col & Hrow & Hcol & Hon & ->). exists row, col.
    repeat (split; [assumption|]). split; [|reflexivity].
    now rewrite (grid_is_cell 5 _ gr row col Hg Hrow Hcol), Hon.
  - intros (row & col & Hrow & Hcol & Hon & ->). exists row, col.
    repeat (split; [assumption|]). split; [|reflexivity].
    rewrite (grid_is_cell 5 _ gr row col Hg Hrow Hcol) in Hon. now injection Hon.
Qed.

Lemma render_identicon_pil_cells_witness :
  13 <= 48 /\
  exists r g b gr painted,
    Identicon.generate_identicon_data "main" = Ok ((r, g, b), gr) /\
    render_identicon_pil (fun s => (0, 0, 6 * Str.len s, 10)) [] 16 16 48 "main" true =
      Ok ([] ++ Rectangle 16 16 (16 + 48 - 1) (16 + 48 - 1) (30, 30, 36) ::
            painted ++
            (if true
             then [label_text (fun s => (0, 0, 6 * Str.len s, 10)) 16 16 48 "main"]
             else [])) /\
    length painted = count_set gr /\
    forall c, In c painted <->
      exists row col, 0 <= row < 5 /\ 0 <= col < 5 /\
        cell gr row col = Ok true /\ c = pil_cell 16 16 48 row col (r, g, b).
Proof.
  split; [discriminate|].
  apply (render_identicon_pil_cells (fun s => (0, 0, 6 * Str.len s, 10)) [] 16 16 48
           "main" true).
  discriminate.
Defined.

(** X12.  For a tile of at least 13 pixels and with [label] set, the last
    call writes the display name, of at most 16 characters, two pixels
    below the tile and centred on it by the width the font measures; no
    other call writes text, and without [label] none does. *)
Theorem render_identicon_pil_label (textbbox : string -> Z * Z * Z * Z)
    (draw : canvas) (x y size : Z) (name : string) (label : bool) :
  13 <= size ->
  exists painted b0 b1 b2 b3,
    textbbox (display_name name) = (b0, b1, b2, b3) /\
    Forall (fun c => is_text c = false) painted /\
    render_identicon_pil textbbox draw x y size name label =
      Ok (draw ++ painted ++
          (if label
           then [Text (x + (size - (b2 - b0)) / 2) (y + size + 2)
                      (display_name name) (180, 180, 190)]
           else [])) /\
    Str.len (display_name name) <= 16.
Proof.
  intros Hsize.
  destruct (render_identicon_pil_spec textbbox draw x y size name label Hsize)
    as (color & gr & _ & _ & Hrender).
  destruct (textbbox (display_name name)) as [[[b0 b1] b2] b3] eqn:Hbox.
  exists (Tile.background x y size size ::
          Render.cells x y size (final (bits_of name) 3 5) color), b0, b1, b2, b3.
  split; [reflexivity|]. split.
  - apply Forall_cons. split; [reflexivity|].
    apply Forall_forall. intros c Hc.
    apply list_elem_of_In, pil_cells_elem in Hc as (row & col & _ & _ & _ & ->).
    reflexivity.
  - split.
    + rewrite Hrender. unfold label_text. rewrite Hbox. reflexivity.
    + rewrite display_name_len. lia.
Qed.

Lemma render_identicon_pil_label_witness :
  13 <= 48 /\
  exists painted b0 b1 b2 b3,
    (fun s => (0, 0, 6 * Str.len s, 10)) (display_name "main") = (b0, b1, b2, b3) /\
    Forall (fun c => is_text c = false) painted /\
    render_identicon_pil (fun s => (0, 0, 6 * Str.len s, 10)) [] 16 16 48 "main" true =
      Ok ([] ++ painted ++
          (if true
           then [Text (16 + (48 - (b2 - b0)) / 2) (16 + 48 + 2)
                      (display_name "main") (180, 180, 190)]
           else [])) /\
    Str.len (display_name "main") <= 16.
Proof.
  split; [discriminate|].
  apply (render_identicon_pil_label (fun s => (0, 0, 6 * Str.len s, 10)) [] 16 16 48
           "main" true).
  discriminate.
Defined.

(** X13.  For a tile of at least 13 pixels, every rectangle painted after
    the background lies inside the tile, at least 4 pixels away from each
    of its edges. *)
Theorem render_identicon_pil_inside (textbbox : string -> Z * Z * Z * Z)
    (draw : canvas) (x y size : Z) (name : string) (label : bool) :
  13 <= size ->
  exists new,
    render_identicon_pil textbbox draw x y size name label = Ok (draw ++ new) /\
    forall (i : nat) x0 y0 x1 y1 fill px py,
      (1 <= i)%nat -> new !! i = Some (Rectangle x0 y0 x1 y1 fill) ->
      x0 <= px <= x1 -> y0 <= py <= y1 ->
      x + 4 <= px <= x + size - 5 /\ y + 4 <= py <= y + size - 5.
Proof.
  intros Hsize.
  destruct (render_identicon_pil_spec textbbox draw x y size name label Hsize)
    as (color & gr & _ & _ & ->).
  eexists. split; [reflexivity|].
  intros i x0 y0 x1 y1 fill px py Hi Hc Hx Hy.
  destruct i as [|k]; [lia|].
  change ((Tile.background x y size size :: ?l) !! S k) with (l !! k) in Hc.
  apply list_elem_of_lookup_2, list_elem_of_In, in_app_or in Hc as [Hc|Hc].
  - apply pil_cells_elem in Hc as (row & col & Hrow & Hcol & _ & Hc).
    pose proof (tile_cell_inside x y size size 5 1 row col px py color
                  ltac:(lia) ltac:(lia) ltac:(lia) Hrow Hcol) as Hin.
    change (Tile.tile_cell x y size size 5 1 row col color)
      with (pil_cell x y size row col color) in Hin.
    rewrite <- Hc in Hin. specialize (Hin (conj Hx Hy)). lia.
  - destruct label; [|destruct Hc]. unfold label_text in Hc.
    destruct (textbbox (display_name name)) as [[[b0 b1] b2] b3].
    destruct Hc as [Hc|[]]. discriminate.
Qed.

Lemma render_identicon_pil_inside_witness :
  13 <= 48 /\
  exists new,
    render_identicon_pil (fun s => (0, 0, 6 * Str.len s, 10)) [] 16 16 48 "main" true
      = Ok ([] ++ new) /\
    forall (i : nat) x0 y0 x1 y1 fill px py,
      (1 <= i)%nat -> new !! i = Some (Rectangle x0 y0 x1 y1 fill) ->
      x0 <= px <= x1 -> y0 <= py <= y1 ->
      16 + 4 <= px <= 16 + 48 - 5 /\ 16 + 4 <= py <= 16 + 48 - 5.
Proof.
  split; [discriminate|].
  apply (render_identicon_pil_inside (fun s => (0, 0, 6 * Str.len s, 10)) [] 16 16 48
           "main" true).
  discriminate.
Defined.

(** X14.  The two renderers agree on the cells that are set: on a square
    tile of at least 13 pixels, at [grid_size = 5] and [scale = 1], both
    raise nothing, [draw_tile] starts with the background
    [render_identicon_pil] starts with, and the call it makes for a cell
    that is set is one of the calls of [render_identicon_pil]. *)
Theorem render_pil_matches_tile (textbbox : string -> Z * Z * Z * Z)
    (draw_t draw_p : canvas) (x y size : Z) (name : string)
    (show_status label : bool) (row col : Z) :
  13 <= size -> 0 <= row < 5 -> 0 <= col < 5 ->
  exists color gr new_t new_p,
    Identicon.generate_identicon_data name = Ok (color, gr) /\
    Tile.draw_tile draw_t x y size size name 5 show_status 1 = Tile.Done (draw_t ++ new_t) /\
    render_identicon_pil textbbox draw_p x y size name label = Ok (draw_p ++ new_p) /\
    new_t !! 0%nat = new_p !! 0%nat /\
    (cell gr row col = Ok true ->
     exists c, new_t !! Z.to_nat (1 + row * 5 + col) = Some c /\ In c new_p).
Proof.
  intros Hsize Hrow Hcol.
  destruct (render_identicon_pil_spec textbbox draw_p x y size name label Hsize)
    as (color & gr & Hgen & Hg & ->).
  destruct (draw_tile_spec draw_t x y size size name 5 show_status 1)
    as (color' & gr' & Hid & _ & ->); [lia|lia|lia|lia|lia|].
  rewrite generate_as_identicon_data, Hid in Hgen. injection Hgen as -> ->.
  eexists color, gr, _, _. split; [now rewrite generate_as_identicon_data|].
  split; [reflexivity|]. split; [reflexivity|]. split; [reflexivity|].
  intros Hon. rewrite (grid_is_cell 5 _ gr row col Hg Hrow Hcol) in Hon.
  injection Hon as Hon.
  exists (pil_cell x y size row col color). split.
  - fold (Tile.cell_index 5 row col). rewrite cell_index_split by lia.
    change ((Tile.background x y size size :: ?l) !! S ?k) with (l !! k).
    rewrite lookup_app_l by (rewrite cells_length; lia).
    change ((5 + 1) / 2) with 3.
    rewrite cells_lookup by lia. now rewrite Hon.
  - right. apply in_or_app. left. apply pil_cells_elem. now exists row, col.
Qed.

Lemma render_pil_matches_tile_witness :
  (13 <= 48 /\ 0 <= 0 < 5 /\ 0 <= 1 < 5) /\
  exists color gr new_t new_p,
    Identicon.generate_identicon_data "main" = Ok (color, gr) /\
    Tile.draw_tile [] 4 8 48 48 "main" 5 true 1 = Tile.Done ([] ++ new_t) /\
    render_identicon_pil (fun s => (0, 0, 6 * Str.len s, 10)) [] 4 8 48 "main" true
      = Ok ([] ++ new_p) /\
    new_t !! 0%nat = new_p !! 0%nat /\
    (cell gr 0 1 = Ok true ->
     exists c, new_t !! Z.to_nat (1 + 0 * 5 + 1) = Some c /\ In c new_p).
Proof.
  split; [repeat split; discriminate|].
  apply (render_pil_matches_tile (fun s => (0, 0, 6 * Str.len s, 10)) [] [] 4 8 48
           "main" true true 0 1); repeat split; discriminate.
Defined.

(** X20.  A tile of fewer than 13 pixels is too small for
    [render_identicon_pil] when a cell of the grid is set: the cells are
    then less than one pixel wide, and the call raises [ValueError], at the
    background for a size below 1 and at the first cell that is set
    otherwise. *)
Theorem render_identicon_pil_refused (textbbox : string -> Z * Z * Z * Z)
    (draw : canvas) (x y size : Z) (name : string) (label : bool)
    (color : rgb) (gr : grid) (row col : Z) :
  size < 13 ->
  Identicon.generate_identicon_data name = Ok (color, gr) ->
  0 <= row < 5 -> 0 <= col < 5 -> cell gr row col = Ok true ->
  render_identicon_pil textbbox draw x y size name label = Err ValueError.
Proof.
  intros Hsize Hgen Hrow Hcol Hon.
  destruct (generate_identicon_data_spec name) as (color' & g' & Hgen' & _ & Hg).
  rewrite Hgen in Hgen'. injection Hgen' as <- <-.
  rewrite (grid_is_cell 5 _ gr row col Hg Hrow Hcol) in Hon. injection Hon as Hon.
  unfold render_identicon_pil. rewrite Hgen. cbn [mbind result_bind]. cbv zeta.
  destruct (Z.lt_ge_cases size 1) as [Hs|Hs];
    [rewrite rectangle_refused by lia; reflexivity|].
  rewrite rectangle_ok by lia. cbn [mbind result_bind].
  rewrite (pil_draw_cells_refused _ gr _ _ _ _ _ row col Hg); try assumption.
  - reflexivity.
  - apply Z.div_lt_upper_bound; lia.
Qed.

Lemma render_identicon_pil_refused_witness :
  (12 < 13 /\
   Identicon.generate_identicon_data "main" =
     Ok ((125, 202, 61),
         [[true; true; false; true; true];
          [false; false; true; false; false];
          [true; true; true; true; true];
          [true; true; false; true; true];
          [false; true; true; true; false]]) /\
   0 <= 0 < 5 /\ 0 <= 1 < 5 /\
   cell [[true; true; false; true; true];
         [false; false; true; false; false];
         [true; true; true; true; true];
         [true; true; false; true; true];
         [false; true; true; true; false]] 0 1 = Ok true) /\
  render_identicon_pil (fun s => (0, 0, 6 * Str.len s, 10)) [] 16 16 12 "main" true =
  Err ValueError.
Proof.
  split; [repeat split; try discriminate; vm_compute; reflexivity|].
  apply (render_identicon_pil_refused (fun s => (0, 0, 6 * Str.len s, 10)) [] 16 16 12
           "main" true (125, 202, 61)
           [[true; true; false; true; true];
            [false; false; true; false; false];
            [true; true; true; true; true];
            [true; true; false; true; true];
            [false; true; true; true; false]] 0 1);
    try (repeat split; discriminate); vm_compute; reflexivity.
Defined.

(** X15.  The text of [render_text_identicon] is a header line with the
    name and the colour, then one line for each of the five rows of the
    grid, then a final line break; every row line is 12 characters wide and
    is the line of the reversed row: the picture reads the same from the
    left and from the right. *)
Theorem render_text_rows (name : string) :
  exists color r0 r1 r2 r3 r4,
    Identicon.generate_identicon_data name = Ok (color, [r0; r1; r2; r3; r4]) /\
    render_text_identicon name =
      Ok ("  " ++ name ++ " (color: rgb" ++ Str.repr_tuple3 color ++ ")" ++ Str.newline ++
          row_line r0 ++ Str.newline ++ row_line r1 ++ Str.newline ++
          row_line r2 ++ Str.newline ++ row_line r3 ++ Str.newline ++
          row_line r4 ++ Str.newline)%string /\
    Forall (fun row => Str.len (row_line row) = 12 /\ row_line (rev row) = row_line row)
           [r0; r1; r2; r3; r4].
Proof.
  destruct (generate_identicon_data_spec name) as (color & g & Hgen & _ & Hg).
  pose proof (grid_is_eq 5 _ g ltac:(lia) Hg) as Heq.
  change (range 5) with [0; 1; 2; 3; 4] in Heq. cbn [List.map] in Heq.
  set (F := final (bits_of name) 3 5) in *.
  assert (Hm : forall r, F r 4 = F r 0 /\ F r 3 = F r 1).
  { intros r. split.
    - exact (final_mirror (bits_of name) 3 5 r 0).
    - exact (final_mirror (bits_of name) 3 5 r 1). }
  subst g. eexists color, _, _, _, _, _. split; [exact Hgen|]. split.
  - unfold render_text_identicon. rewrite Hgen. cbn [mbind result_bind]. cbv zeta.
    rewrite lines_fold. cbn [app List.map Str.join]. f_equal.
    rewrite !string_app_assoc, string_app_nil_r. reflexivity.
  - assert (Hrow : forall r,
      Str.len (row_line [F r 0; F r 1; F r 2; F r 3; F r 4]) = 12 /\
      row_line (rev [F r 0; F r 1; F r 2; F r 3; F r 4]) =
      row_line [F r 0; F r 1; F r 2; F r 3; F r 4]).
    { intros r. split; [now rewrite row_line_len|].
      cbn [rev app]. destruct (Hm r) as [-> ->]. reflexivity. }
    repeat (apply Forall_cons; split; [apply Hrow|]). now apply Forall_nil.
Qed.

(** X16.  A row line determines its row: two rows of cells that render to
    the same line are the same row, so the text loses nothing of the
    grid. *)
Theorem row_line_injective (row1 row2 : list bool) :
  row_line row1 = row_line row2 -> row1 = row2.
Proof.
  unfold row_line. rewrite (row_line_acc row1), (row_line_acc row2).
  cbn [String.append]. intros H. apply row_text_inj. congruence.
Qed.

Lemma row_line_injective_witness :
  row_line [true; false] = row_line [true; false] /\ [true; false] = [true; false].
Proof.
  split; [reflexivity|]. apply (row_line_injective [true; false] [true; false]).
  reflexivity.
Defined.

End RenderProperties.

(** ** More on [identicon_data] and the colours of a tile *)

Section ShapeProperties.
Import Py Derive Grid Pil Tile.

(** X17.  For every name that UTF-8 can encode (every [str] without a lone
    surrogate, which is what the type [string] holds) and every integer
    [grid_size], [identicon_data] raises nothing and returns a square
    grid: [grid_size] rows of [grid_size] cells, none when [grid_size] is 0
    or negative.  A name with a lone surrogate is outside the statement:
    for it [name.encode('utf-8')] raises [UnicodeEncodeError]. *)
Theorem identicon_data_shape (name : string) (grid_size : Z) :
  exists color g,
    Hybrid.identicon_data name grid_size = Ok (color, g) /\
    length g = Z.to_nat grid_size /\
    Forall (fun row => length row = Z.to_nat grid_size) g.
Proof.
  destruct (identicon_data_spec name grid_size) as (color & g & _ & Hid & Hg).
  exists color, g. split; [exact Hid|].
  destruct (grid_is_shape _ _ _ Hg) as [Hlen Hrows].
  split; [lia|]. eapply Forall_impl; [exact Hrows|]. cbv beta. intros row Hrow. lia.
Qed.

(** X18.  Under the conditions of X3 a cell that is not set is painted
    dark: every channel of its fill lies in [0, 51] and is not above the
    same channel of the foreground colour. *)
Theorem draw_tile_dim_fill (draw : canvas) (x y tile_w tile_h : Z)
    (name : string) (grid_size : Z) (show_status : bool) (scale row col : Z) :
  0 < grid_size -> 0 <= scale ->
  grid_size <= tile_w - 8 * scale -> grid_size <= tile_h - 8 * scale ->
  0 <= row < grid_size -> 0 <= col < grid_size ->
  exists r g b gr new,
    Hybrid.identicon_data name grid_size = Ok ((r, g, b), gr) /\
    draw_tile draw x y tile_w tile_h name grid_size show_status scale =
      Done (draw ++ new) /\
    (cell gr row col = Ok false ->
     exists x0 y0 x1 y1 r' g' b',
       new !! Z.to_nat (1 + row * grid_size + col) =
         Some (Rectangle x0 y0 x1 y1 (r', g', b')) /\
       (0 <= r' <= 51 /\ r' <= r) /\ (0 <= g' <= 51 /\ g' <= g) /\
       (0 <= b' <= 51 /\ b' <= b)).
Proof.
  intros Hgs Hs Hw Hh Hrow Hcol.
  destruct (draw_tile_spec draw x y tile_w tile_h name grid_size show_status scale)
    as ([[r g] b] & gr & Hid & Hg & ->); [lia|lia|lia|lia|lia|].
  clear Hs Hw Hh.
  rewrite Z.max_r in Hg by lia.
  eexists r, g, b, gr, _. split; [exact Hid|]. split; [reflexivity|].
  intros Hoff. rewrite (grid_is_cell _ _ _ row col Hg Hrow Hcol) in Hoff.
  injection Hoff as Hoff.
  fold (cell_index grid_size row col). rewrite cell_index_split by lia.
  change ((background x y tile_w tile_h :: ?l) !! S ?k) with (l !! k).
  rewrite lookup_app_l by (rewrite cells_length; nia).
  rewrite cells_lookup by lia. rewrite Hoff.
  unfold tile_cell, cell_rect, dim. cbv zeta.
  eexists _, _, _, _, _, _, _. split; [reflexivity|].
  destruct (digest_shape name) as (b0 & b1 & b2 & b3 & b4 & b5 & b6 & b7 & rest & Hd).
  destruct (fg_color_spec b0 b1 b2 b3 (b4 :: b5 :: b6 :: b7 :: rest))
    as (_ & _ & _ & _ & rf & gf & bf & ri & gi & bi & _ & Hfg & Hr & Hgc & Hb).
  cbv zeta in Hfg. rewrite <- Hd in Hfg.
  destruct (identicon_data_spec name grid_size) as (color & g0 & Hfg' & Hid' & _).
  rewrite Hid in Hid'. injection Hid' as <- _.
  rewrite Hfg in Hfg'. injection Hfg' as -> -> ->.
  unfold ColorRange.channel in Hr, Hgc, Hb.
  pose proof (Z.div_mod r 5 ltac:(lia)). pose proof (Z.mod_pos_bound r 5 ltac:(lia)).
  pose proof (Z.div_mod g 5 ltac:(lia)). pose proof (Z.mod_pos_bound g 5 ltac:(lia)).
  pose proof (Z.div_mod b 5 ltac:(lia)). pose proof (Z.mod_pos_bound b 5 ltac:(lia)).
  lia.
Qed.

Lemma draw_tile_dim_fill_witness :
  (0 < 5 /\ 0 <= 1 /\ 5 <= 48 - 8 * 1 /\ 5 <= 48 - 8 * 1 /\
   0 <= 1 < 5 /\ 0 <= 0 < 5) /\
  exists r g b gr new,
    Hybrid.identicon_data "main" 5 = Ok ((r, g, b), gr) /\
    draw_tile [] 4 8 48 48 "main" 5 true 1 = Done ([] ++ new) /\
    (cell gr 1 0 = Ok false ->
     exists x0 y0 x1 y1 r' g' b',
       new !! Z.to_nat (1 + 1 * 5 + 0) =
         Some (Rectangle x0 y0 x1 y1 (r', g', b')) /\
       (0 <= r' <= 51 /\ r' <= r) /\ (0 <= g' <= 51 /\ g' <= g) /\
       (0 <= b' <= 51 /\ b' <= b)).
Proof.
  split; [repeat split; discriminate|].
  apply (draw_tile_dim_fill [] 4 8 48 48 "main" 5 true 1 1 0);
    repeat split; discriminate.
Defined.

End ShapeProperties.
